(** * rebind_router: per-frame classification and rewriting

    A shallow embedding of [examples/cpp/rebind/rebind.cpp]: the two packet
    callbacks handed to [dual_packet_filter] (frames leaving through the
    default adapter, frames arriving on the rebind adapter), the process
    attribution helpers [resolve_process_for_tcp] / [resolve_process_for_udp],
    and the configuration routine [set_ndis_interfaces_by_adapter_info].

    Pointers into [INTERMEDIATE_BUFFER::m_IBuffer] are byte offsets; the
    process table, the checksum routines of [CNdisApi] and the capture driver
    are interfaces the router is written against. *)

From Stdlib Require Import ZArith NArith Strings.Byte Strings.String.
From stdpp Require Import base decidable option list vector.

Local Open Scope Z_scope.

(** ** Bytes, strings and addresses *)

Abbreviation byte := Byte.byte.

#[global] Instance byte_eq_dec : EqDecision byte := Byte.byte_eq_dec.

Definition byte_val (b : byte) : Z := Z.of_N (Byte.to_N b).

(** [std::string] holds 8-bit characters, [std::wstring] 16-bit code units. *)
Definition std_string := list byte.
Definition wchar_t := N.
Definition std_wstring := list wchar_t.

Definition str (s : string) : std_string := list_byte_of_string s.
Definition wstr (s : string) : std_wstring := Byte.to_N <$> list_byte_of_string s.

(** [std::basic_string::find(needle)]: the lowest position at which [needle]
    occurs in the receiver, [None] standing for [npos]. *)
Fixpoint starts_with {A} `{EqDecision A} (needle hay : list A) : bool :=
  match needle, hay with
  | [], _ => true
  | _ :: _, [] => false
  | x :: needle', y :: hay' => bool_decide (x = y) && starts_with needle' hay'
  end.

Fixpoint find_from {A} `{EqDecision A} (hay needle : list A) (pos : nat) : option nat :=
  if starts_with needle hay then Some pos
  else match hay with
       | [] => None
       | _ :: hay' => find_from hay' needle (S pos)
       end.

Definition find {A} `{EqDecision A} (hay needle : list A) : option nat :=
  find_from hay needle 0.

Definition npos : option nat := None.

(** [net::mac_address] wraps a [std::array<uint8_t, 6>]; [net::ip_address_v4]
    is an [in_addr], four bytes in network order. *)
Record mac_address := { data : vec byte 6 }.
Definition ip_address_v4 := vec byte 4.

#[global] Instance mac_address_eq_dec : EqDecision mac_address.
Proof. solve_decision. Defined.

Definition HANDLE := Z.
Definition INVALID_HANDLE_VALUE : HANDLE := -1.

(** ** Frames *)

(** Modelled from the spec: the constants and header layouts that the
    platform and library headers declare (Ethernet II, IPv4, TCP and UDP
    headers; [MAX_ETHER_FRAME]); they are not part of this source file. *)
Definition MAX_ETHER_FRAME : nat := 1514.
Definition ETH_P_IP : Z := 0x0800.
Definition IPPROTO_TCP : Z := 6.
Definition IPPROTO_UDP : Z := 17.
Definition AF_INET : Z := 2.
Definition IF_TYPE_PPP : Z := 23.

Definition sizeof_ether_header : nat := 14.
Definition sizeof_DWORD : nat := 4.

Record INTERMEDIATE_BUFFER := {
  m_Length : Z;
  m_IBuffer : list byte
}.

(** [m_IBuffer] is an array of [MAX_ETHER_FRAME] bytes whatever [m_Length]. *)
Definition buffer_wf (b : INTERMEDIATE_BUFFER) : Prop :=
  length (m_IBuffer b) = MAX_ETHER_FRAME.

#[global] Instance buffer_wf_dec b : Decision (buffer_wf b).
Proof. unfold buffer_wf. apply _. Defined.

Definition set_IBuffer (mem : list byte) (b : INTERMEDIATE_BUFFER) : INTERMEDIATE_BUFFER :=
  {| m_Length := m_Length b; m_IBuffer := mem |}.

Section memory.
Implicit Types (mem : list byte) (off : nat).

Definition load8 mem off : byte := default "000"%byte (mem !! off).

Definition load_u8 mem off : Z := byte_val (load8 mem off).

(** A 16-bit field read on the little-endian host. *)
Definition load_u16 mem off : Z :=
  load_u8 mem off + 256 * load_u8 mem (off + 1).

Definition load_in_addr mem off : ip_address_v4 :=
  [# load8 mem off; load8 mem (off + 1); load8 mem (off + 2); load8 mem (off + 3)].

Definition load_mac mem off : vec byte 6 :=
  [# load8 mem off; load8 mem (off + 1); load8 mem (off + 2);
     load8 mem (off + 3); load8 mem (off + 4); load8 mem (off + 5)].

(** [memcpy(mem + off, src, n)] and struct assignment into the frame. *)
Definition memcpy {n} off (src : vec byte n) mem : list byte :=
  list_inserts off (vec_to_list src) mem.
End memory.

Definition ntohs (x : Z) : Z :=
  Z.lor (Z.shiftl (Z.land x 0xff) 8) (Z.land (Z.shiftr x 8) 0xff).

(** Field offsets inside [ether_header], [iphdr], [tcphdr] and [udphdr]. *)
Module ether.
Definition h_dest : nat := 0.
Definition h_source : nat := 6.
Definition h_proto : nat := 12.
End ether.

Module ip.
Definition ip_hl_v : nat := 0.
Definition ip_p : nat := 9.
Definition ip_sum : nat := 10.
Definition ip_src : nat := 12.
Definition ip_dst : nat := 16.
End ip.

Module transport.
Definition th_sport : nat := 0.
Definition th_dport : nat := 2.
End transport.

(** [ip_header->ip_hl]: the low nibble of the first header byte. *)
Definition ip_hl (mem : list byte) (ip_header : nat) : Z :=
  Z.land (load_u8 mem (ip_header + ip.ip_hl_v)) 0xf.

(** ** Collaborators *)

(** [iphelper::network_process]: the image name is the only member the
    router reads. *)
Record network_process := { name : std_wstring }.

Record ip_session := {
  local_ip : ip_address_v4;
  remote_ip : ip_address_v4;
  local_port : Z;
  remote_port : Z
}.

Record ip_endpoint := {
  endpoint_ip : ip_address_v4;
  endpoint_port : Z
}.

#[global] Instance ip_session_eq_dec : EqDecision ip_session.
Proof. solve_decision. Defined.
#[global] Instance ip_endpoint_eq_dec : EqDecision ip_endpoint.
Proof. solve_decision. Defined.

(** Operations on the process table thread its state [H]. *)
Definition table_op (H A : Type) : Type := H → A * H.

#[global] Instance table_ret {H} : MRet (table_op H) := λ A a h, (a, h).
#[global] Instance table_bind {H} : MBind (table_op H) :=
  λ A B f m h, let '(a, h') := m h in f a h'.

(** Modelled from the spec: the interface of
    [iphelper::process_lookup<net::ip_address_v4>], the singleton returned by
    [get_process_helper()], which is declared outside this source file: a
    TCP lookup by 4-tuple and a UDP lookup by local endpoint, each with a
    boolean template argument (the first argument here), and
    [actualize tcp udp], which refreshes the TCP table, the UDP table or
    both.  A [std::shared_ptr<network_process>] is an [option], [None] being
    the empty pointer. *)
Class process_lookup (H : Type) := {
  lookup_process_for_tcp : bool → ip_session → table_op H (option network_process);
  lookup_process_for_udp : bool → ip_endpoint → table_op H (option network_process);
  actualize : bool → bool → table_op H unit
}.

(** The static checksum routines of [CNdisApi], defined outside this source
    file; each rewrites the frame it is given. *)
Class CNdisApi := {
  RecalculateIPChecksum : INTERMEDIATE_BUFFER → INTERMEDIATE_BUFFER;
  RecalculateTCPChecksum : INTERMEDIATE_BUFFER → INTERMEDIATE_BUFFER;
  RecalculateUDPChecksum : INTERMEDIATE_BUFFER → INTERMEDIATE_BUFFER
}.

(** ** Adapters *)

(** [ndisapi::ndis_wan_type]: [ndis_wan_none], and the enumerators of WAN
    links, which the router does not tell apart. *)
Inductive ndis_wan_type :=
| ndis_wan_none
| ndis_wan_link (kind : nat).

#[global] Instance ndis_wan_type_eq_dec : EqDecision ndis_wan_type.
Proof. solve_decision. Defined.

Record ras_link_info := { ip_address : ip_address_v4 }.

(** An entry of [filter_->get_interface_list()]. *)
Record network_adapter := {
  get_internal_name : std_string;
  get_ras_links : option (list ras_link_info);
  get_ndis_wan_type : ndis_wan_type;
  get_adapter : HANDLE;
  get_hw_address : mac_address
}.

Record ip_address_info := {
  ss_family : Z;
  sin_addr : ip_address_v4
}.

Record ip_gateway_info := {
  gw_ss_family : Z;
  gw_sin_addr : ip_address_v4;
  hardware_address : mac_address
}.

(** [iphelper::network_adapter_info]. *)
Record network_adapter_info := {
  get_if_type : Z;
  get_adapter_name : std_string;
  get_unicast_address_list : list ip_address_info;
  get_gateway_address_list : list ip_gateway_info
}.

(** [ndisapi::dual_packet_filter] as the router uses it, over the driver
    state [D]: the list of NDIS adapters and the two filter slots; and
    [network_adapter_info::has_address].  All are defined outside this
    source file. *)
Class capture_driver (D : Type) := {
  get_interface_list : D → list network_adapter;
  start_filter : HANDLE → nat → D → bool * D;
  stop_filter : nat → D → D;
  has_address : network_adapter_info → ip_address_v4 → bool
}.

(** Modelled from the spec: the verdicts Pass, Drop and Route of
    [dual_packet_filter::packet_action], an enumeration declared outside this
    source file. *)
Inductive packet_action := pass | drop | route.

#[global] Instance packet_action_eq_dec : EqDecision packet_action.
Proof. solve_decision. Defined.

(** ** The router *)

Record rebind_router {D : Type} := {
  filter_ : D;
  default_adapter_handle_ : HANDLE;
  rebind_adapter_handle_ : HANDLE;
  app_name_ : std_wstring;
  rebind_src_hw_address_ : mac_address;
  default_src_hw_address_ : mac_address;
  rebind_gw_hw_address_ : mac_address;
  rebind_src_ip_address_ : ip_address_v4;
  default_src_ip_address_ : ip_address_v4;
  file_stream_ : list INTERMEDIATE_BUFFER
}.
Arguments rebind_router : clear implicits.

(** [file_stream_ << buffer]: the frame is appended to the capture file. *)
Definition pcap_write {D} (buffer : INTERMEDIATE_BUFFER) (this : rebind_router D) : rebind_router D :=
  {| filter_ := filter_ this;
     default_adapter_handle_ := default_adapter_handle_ this;
     rebind_adapter_handle_ := rebind_adapter_handle_ this;
     app_name_ := app_name_ this;
     rebind_src_hw_address_ := rebind_src_hw_address_ this;
     default_src_hw_address_ := default_src_hw_address_ this;
     rebind_gw_hw_address_ := rebind_gw_hw_address_ this;
     rebind_src_ip_address_ := rebind_src_ip_address_ this;
     default_src_ip_address_ := default_src_ip_address_ this;
     file_stream_ := file_stream_ this ++ [buffer] |}.

(** What a packet callback does with a frame: it returns an action, leaving
    the frame, the router and the process table in some state, or it
    dereferences an empty [shared_ptr]. *)
Inductive outcome (D H : Type) :=
| Returned (action : packet_action) (buffer : INTERMEDIATE_BUFFER)
    (this : rebind_router D) (table : H)
| NullDereference.
Arguments Returned {D H}.
Arguments NullDereference {D H}.

Section attribution.
Context {H : Type} {Hlookup : process_lookup H}.
Implicit Types (mem : list byte) (ip_header tcp_header udp_header : nat).

Definition tcp_session mem ip_header tcp_header : ip_session :=
  {| local_ip := load_in_addr mem (ip_header + ip.ip_src);
     remote_ip := load_in_addr mem (ip_header + ip.ip_dst);
     local_port := ntohs (load_u16 mem (tcp_header + transport.th_sport));
     remote_port := ntohs (load_u16 mem (tcp_header + transport.th_dport)) |}.

Definition udp_endpoint mem ip_header udp_header : ip_endpoint :=
  {| endpoint_ip := load_in_addr mem (ip_header + ip.ip_src);
     endpoint_port := ntohs (load_u16 mem (udp_header + transport.th_sport)) |}.

Definition resolve_process_for_tcp mem ip_header tcp_header
  : table_op H (option network_process) :=
  process ← lookup_process_for_tcp false (tcp_session mem ip_header tcp_header);
  match process with
  | None =>
      _ ← actualize true false;
      lookup_process_for_tcp true (tcp_session mem ip_header tcp_header)
  | Some _ => mret process
  end.

Definition resolve_process_for_udp mem ip_header udp_header
  : table_op H (option network_process) :=
  process ← lookup_process_for_udp false (udp_endpoint mem ip_header udp_header);
  match process with
  | None =>
      _ ← actualize false true;
      lookup_process_for_udp true (udp_endpoint mem ip_header udp_header)
  | Some _ => mret process
  end.
End attribution.


Section callbacks.
Context {D H : Type} {Hlookup : process_lookup H} {api : CNdisApi}.
Implicit Types (this : rebind_router D) (buffer : INTERMEDIATE_BUFFER) (h : H).

(** The address substitutions, before any checksum is recomputed. *)
Definition egress_rewrite this (ethernet_header ip_header : nat) (mem : list byte) : list byte :=
  let mem := memcpy (ip_header + ip.ip_src) (rebind_src_ip_address_ this) mem in
  let mem := memcpy (ethernet_header + ether.h_source) (data (rebind_src_hw_address_ this)) mem in
  memcpy (ethernet_header + ether.h_dest) (data (rebind_gw_hw_address_ this)) mem.

Definition ingress_rewrite this (ethernet_header ip_header : nat) (mem : list byte) : list byte :=
  let mem := memcpy (ip_header + ip.ip_dst) (default_src_ip_address_ this) mem in
  memcpy (ethernet_header + ether.h_dest) (data (default_src_hw_address_ this)) mem.

(** The first callback of [filter_]: frames sent through the default
    adapter. *)
Definition egress_lambda this buffer h : outcome D H :=
  let mem := m_IBuffer buffer in
  let ethernet_header := 0%nat in
  if decide (ntohs (load_u16 mem (ethernet_header + ether.h_proto)) = ETH_P_IP) then
    let ip_header := (ethernet_header + sizeof_ether_header)%nat in
    if decide (load_in_addr mem (ip_header + ip.ip_src) ≠ default_src_ip_address_ this) then
      Returned pass buffer this h
    else if decide (load_u8 mem (ip_header + ip.ip_p) = IPPROTO_UDP) then
      let udp_header := (ip_header + sizeof_DWORD * Z.to_nat (ip_hl mem ip_header))%nat in
      let '(process, h) := resolve_process_for_udp mem ip_header udp_header h in
      match process with
      | None => NullDereference
      | Some process =>
          if decide (find (name process) (app_name_ this) ≠ npos) then
            let buffer := set_IBuffer (egress_rewrite this ethernet_header ip_header mem) buffer in
            let buffer := RecalculateUDPChecksum buffer in
            let buffer := RecalculateIPChecksum buffer in
            Returned route buffer (pcap_write buffer this) h
          else Returned pass buffer this h
      end
    else if decide (load_u8 mem (ip_header + ip.ip_p) = IPPROTO_TCP) then
      let tcp_header := (ip_header + sizeof_DWORD * Z.to_nat (ip_hl mem ip_header))%nat in
      let '(process, h) := resolve_process_for_tcp mem ip_header tcp_header h in
      match process with
      | None => NullDereference
      | Some process =>
          if decide (find (name process) (app_name_ this) ≠ npos) then
            let buffer := set_IBuffer (egress_rewrite this ethernet_header ip_header mem) buffer in
            let buffer := RecalculateTCPChecksum buffer in
            let buffer := RecalculateIPChecksum buffer in
            Returned route buffer (pcap_write buffer this) h
          else Returned pass buffer this h
      end
    else Returned pass buffer this h
  else Returned pass buffer this h.

(** The second callback of [filter_]: frames received on the rebind adapter.
    It never consults the process table. *)
Definition ingress_lambda this buffer : packet_action * INTERMEDIATE_BUFFER * rebind_router D :=
  let mem := m_IBuffer buffer in
  let ethernet_header := 0%nat in
  if decide (ntohs (load_u16 mem (ethernet_header + ether.h_proto)) = ETH_P_IP) then
    let ip_header := (ethernet_header + sizeof_ether_header)%nat in
    if decide (load_in_addr mem (ip_header + ip.ip_dst) ≠ rebind_src_ip_address_ this) then
      (pass, buffer, this)
    else if decide (load_u8 mem (ip_header + ip.ip_p) = IPPROTO_UDP
                    ∨ load_u8 mem (ip_header + ip.ip_p) = IPPROTO_TCP) then
      let mem := ingress_rewrite this ethernet_header ip_header mem in
      let buffer := set_IBuffer mem buffer in
      let buffer :=
        if decide (load_u8 mem (ip_header + ip.ip_p) = IPPROTO_UDP) then
          RecalculateUDPChecksum buffer
        else if decide (load_u8 mem (ip_header + ip.ip_p) = IPPROTO_TCP) then
          RecalculateTCPChecksum buffer
        else buffer in
      let buffer := RecalculateIPChecksum buffer in
      (route, buffer, pcap_write buffer this)
    else (pass, buffer, this)
  else (pass, buffer, this).
End callbacks.

(** ** Configuration *)

(** [std::find_if]: the index of the first element satisfying [pred], [None]
    for the end iterator. *)
Fixpoint find_if {A} (pred : A → bool) (l : list A) : option nat :=
  match l with
  | [] => None
  | x :: l' => if pred x then Some 0%nat else S <$> find_if pred l'
  end.

Definition set_filter {D} (f : D) (this : rebind_router D) : rebind_router D :=
  {| filter_ := f;
     default_adapter_handle_ := default_adapter_handle_ this;
     rebind_adapter_handle_ := rebind_adapter_handle_ this;
     app_name_ := app_name_ this;
     rebind_src_hw_address_ := rebind_src_hw_address_ this;
     default_src_hw_address_ := default_src_hw_address_ this;
     rebind_gw_hw_address_ := rebind_gw_hw_address_ this;
     rebind_src_ip_address_ := rebind_src_ip_address_ this;
     default_src_ip_address_ := default_src_ip_address_ this;
     file_stream_ := file_stream_ this |}.

Section configuration.
Context {D : Type} {Hdriver : capture_driver D}.
Implicit Types (this : rebind_router D) (info : network_adapter_info).

Definition get_ndis_interface_by_adapter_info this info : option nat :=
  let ndis_adapters := get_interface_list (filter_ this) in
  if decide (get_if_type info ≠ IF_TYPE_PPP) then
    find_if (λ ndis_adapter,
               bool_decide (npos ≠ find (get_internal_name ndis_adapter)
                                       (get_adapter_name info)))
            ndis_adapters
  else
    find_if (λ ndis_adapter,
               match get_ras_links ndis_adapter with
               | Some wan_info =>
                   match find_if (λ ras_link, has_address info (ip_address ras_link))
                                 wan_info with
                   | Some _ => true
                   | None => false
                   end
               | None => false
               end)
            ndis_adapters.

(** The three loops keep the last [AF_INET] entry of each list. *)
Definition last_inet_gateway (l : list ip_gateway_info) (init : mac_address) : mac_address :=
  foldl (λ acc gw, if decide (gw_ss_family gw = AF_INET) then hardware_address gw else acc)
        init l.

Definition last_inet_address (l : list ip_address_info) (init : ip_address_v4) : ip_address_v4 :=
  foldl (λ acc ip, if decide (ss_family ip = AF_INET) then sin_addr ip else acc)
        init l.

(** [None]: an index outside [get_interface_list()]. *)
Definition set_ndis_interfaces_by_adapter_info
    (default_adapter rebind_adapter : network_adapter_info) this
  : option (bool * rebind_router D) :=
  let ndis_default := get_ndis_interface_by_adapter_info this default_adapter in
  let ndis_rebind := get_ndis_interface_by_adapter_info this rebind_adapter in
  match ndis_default with
  | None => Some (false, this)
  | Some ndis_default =>
      match ndis_rebind with
      | None => Some (false, this)
      | Some ndis_rebind =>
          rebind_if ← get_interface_list (filter_ this) !! ndis_rebind;
          if decide (get_ndis_wan_type rebind_if ≠ ndis_wan_none) then Some (false, this)
          else
            default_if ← get_interface_list (filter_ this) !! ndis_default;
            Some (true,
                  {| filter_ := filter_ this;
                     default_adapter_handle_ := get_adapter default_if;
                     rebind_adapter_handle_ := get_adapter rebind_if;
                     app_name_ := app_name_ this;
                     default_src_hw_address_ := get_hw_address default_if;
                     rebind_src_hw_address_ := get_hw_address rebind_if;
                     rebind_gw_hw_address_ :=
                       last_inet_gateway (get_gateway_address_list rebind_adapter)
                                         (rebind_gw_hw_address_ this);
                     rebind_src_ip_address_ :=
                       last_inet_address (get_unicast_address_list rebind_adapter)
                                         (rebind_src_ip_address_ this);
                     default_src_ip_address_ :=
                       last_inet_address (get_unicast_address_list default_adapter)
                                         (default_src_ip_address_ this);
                     file_stream_ := file_stream_ this |})
      end
  end.

(** The three checks of [set_ndis_interfaces_by_adapter_info]: an adapter
    that is not found, or a rebind adapter on a WAN link. *)
Definition refused (default_adapter rebind_adapter : network_adapter_info) this : Prop :=
  get_ndis_interface_by_adapter_info this default_adapter = None
  ∨ get_ndis_interface_by_adapter_info this rebind_adapter = None
  ∨ ∃ i rebind_if,
      get_ndis_interface_by_adapter_info this rebind_adapter = Some i
      ∧ get_interface_list (filter_ this) !! i = Some rebind_if
      ∧ get_ndis_wan_type rebind_if ≠ ndis_wan_none.

Definition set_application_name (name : std_wstring) this : rebind_router D :=
  {| filter_ := filter_ this;
     default_adapter_handle_ := default_adapter_handle_ this;
     rebind_adapter_handle_ := rebind_adapter_handle_ this;
     app_name_ := name;
     rebind_src_hw_address_ := rebind_src_hw_address_ this;
     default_src_hw_address_ := default_src_hw_address_ this;
     rebind_gw_hw_address_ := rebind_gw_hw_address_ this;
     rebind_src_ip_address_ := rebind_src_ip_address_ this;
     default_src_ip_address_ := default_src_ip_address_ this;
     file_stream_ := file_stream_ this |}.

Definition start this : bool * rebind_router D :=
  let '(started, f) := start_filter (default_adapter_handle_ this) 0 (filter_ this) in
  if negb started then (false, set_filter f this)
  else
    let '(started, f) := start_filter (rebind_adapter_handle_ this) 1 f in
    if negb started then (false, set_filter f this)
    else (true, set_filter f this).

Definition stop this : rebind_router D :=
  set_filter (stop_filter 1 (stop_filter 0 (filter_ this))) this.

(** The end of [main], once both adapters are chosen: configure, and call
    [start] unless configuration failed.  The result is that of [start], or
    [false] when [start] was not called. *)
Definition main_configure_and_start
    (default_adapter rebind_adapter : network_adapter_info) this
  : option (bool * rebind_router D) :=
  '(result, this) ← set_ndis_interfaces_by_adapter_info default_adapter rebind_adapter this;
  if negb result then Some (false, this)
  else Some (start this).
End configuration.

(** ** Implementations of the interfaces

    The router is stated against interfaces; the implementations below are
    the ones the examples run on. *)

(** A process table kept as a snapshot of the system's connection tables:
    lookups read the snapshot whatever their template argument, [actualize]
    reloads the chosen tables. *)
Module snapshot_table.
Record t := {
  system_tcp : list (ip_session * network_process);
  system_udp : list (ip_endpoint * network_process);
  tcp_to_app : list (ip_session * network_process);
  udp_to_app : list (ip_endpoint * network_process)
}.

Fixpoint assoc {K V} `{EqDecision K} (k : K) (l : list (K * V)) : option V :=
  match l with
  | [] => None
  | (k', v) :: l' => if decide (k = k') then Some v else assoc k l'
  end.

Definition refresh (tcp udp : bool) (tbl : t) : t :=
  {| system_tcp := system_tcp tbl;
     system_udp := system_udp tbl;
     tcp_to_app := if tcp then system_tcp tbl else tcp_to_app tbl;
     udp_to_app := if udp then system_udp tbl else udp_to_app tbl |}.

#[global] Instance lookup : process_lookup t := {
  lookup_process_for_tcp _ session tbl := (assoc session (tcp_to_app tbl), tbl);
  lookup_process_for_udp _ endpoint tbl := (assoc endpoint (udp_to_app tbl), tbl);
  actualize tcp udp tbl := ((), refresh tcp udp tbl)
}.
End snapshot_table.

(** Modelled from the spec: the bodies of [CNdisApi::RecalculateIPChecksum],
    [RecalculateTCPChecksum] and [RecalculateUDPChecksum], which are not in
    this source file: the one's complement sum of the IPv4 header, and of
    the pseudo-header and segment for TCP and UDP. *)
Module inet_checksum.
Definition byte_of (v : Z) : byte :=
  default "000"%byte (Byte.of_N (Z.to_N (v mod 256))).

(** A 16-bit word in network order. *)
Definition word16 (mem : list byte) (off : nat) : Z :=
  256 * load_u8 mem off + load_u8 mem (off + 1).

Definition store16 (off : nat) (v : Z) (mem : list byte) : list byte :=
  <[(off + 1)%nat := byte_of v]> (<[off := byte_of (v / 256)]> mem).

Fixpoint sum_words (mem : list byte) (off words : nat) : Z :=
  match words with
  | O => 0
  | S words' => word16 mem off + sum_words mem (off + 2) words'
  end.

Definition fold16 (sum : Z) : Z :=
  let sum := Z.land sum 0xffff + Z.shiftr sum 16 in
  Z.land sum 0xffff + Z.shiftr sum 16.

Definition complement16 (sum : Z) : Z := Z.land (Z.lnot sum) 0xffff.

Definition ip_header : nat := sizeof_ether_header.

(** Modelled from the spec: [CNdisApi::RecalculateIPChecksum], the checksum
    of the IPv4 header with its checksum field cleared. *)
Definition ip_checksum (b : INTERMEDIATE_BUFFER) : INTERMEDIATE_BUFFER :=
  let mem := store16 (ip_header + ip.ip_sum) 0 (m_IBuffer b) in
  let words := Z.to_nat (2 * ip_hl mem ip_header) in
  let sum := complement16 (fold16 (sum_words mem ip_header words)) in
  set_IBuffer (store16 (ip_header + ip.ip_sum) sum mem) b.

(** Modelled from the spec: [CNdisApi::RecalculateTCPChecksum] and
    [CNdisApi::RecalculateUDPChecksum], the checksum over the pseudo-header
    and the segment; [th_sum] is at offset 16 of a TCP header and 6 of a UDP
    header. *)
Definition transport_checksum (proto : Z) (th_sum : nat) (b : INTERMEDIATE_BUFFER)
  : INTERMEDIATE_BUFFER :=
  let mem := m_IBuffer b in
  if decide (load_u8 mem (ip_header + ip.ip_p) = proto) then
    let header := (ip_header + sizeof_DWORD * Z.to_nat (ip_hl mem ip_header))%nat in
    let len := word16 mem (ip_header + 2) - 4 * ip_hl mem ip_header in
    let mem := if Z.odd len then <[(header + Z.to_nat len)%nat := "000"%byte]> mem else mem in
    let mem := store16 (header + th_sum) 0 mem in
    let sum := sum_words mem header (Z.to_nat ((len + 1) / 2))
               + sum_words mem (ip_header + ip.ip_src) 4 + proto + len in
    set_IBuffer (store16 (header + th_sum) (complement16 (fold16 sum)) mem) b
  else b.

#[global] Instance api : CNdisApi := {
  RecalculateIPChecksum := ip_checksum;
  RecalculateTCPChecksum := transport_checksum IPPROTO_TCP 16;
  RecalculateUDPChecksum := transport_checksum IPPROTO_UDP 6
}.
End inet_checksum.

(** A capture driver that lists fixed adapters and records which filters
    were started. *)
Module recording_driver.
Record t := {
  interfaces : list network_adapter;
  started : list (HANDLE * nat)
}.

#[global] Instance driver : capture_driver t := {
  get_interface_list := interfaces;
  start_filter adapter index d :=
    (true, {| interfaces := interfaces d; started := started d ++ [(adapter, index)] |});
  stop_filter index d :=
    {| interfaces := interfaces d;
       started := filter (λ entry, entry.2 ≠ index) (started d) |};
  has_address info address :=
    bool_decide (address ∈ sin_addr <$> get_unicast_address_list info)
}.
End recording_driver.

(** The process-table calls a run performs, in order. *)
Inductive table_call :=
| call_lookup_tcp (template_arg : bool) (session : ip_session)
| call_lookup_udp (template_arg : bool) (endpoint : ip_endpoint)
| call_actualize (tcp udp : bool).

#[global] Instance table_call_eq_dec : EqDecision table_call.
Proof. solve_decision. Defined.

(** Any process table, with every call appended to a log. *)
Definition logged {H} {Hlookup : process_lookup H} : process_lookup (H * list table_call) := {|
  lookup_process_for_tcp template_arg session '(h, log) :=
    let '(process, h) := lookup_process_for_tcp template_arg session h in
    (process, (h, log ++ [call_lookup_tcp template_arg session]));
  lookup_process_for_udp template_arg endpoint '(h, log) :=
    let '(process, h) := lookup_process_for_udp template_arg endpoint h in
    (process, (h, log ++ [call_lookup_udp template_arg endpoint]));
  actualize tcp udp '(h, log) :=
    let '(u, h) := actualize tcp udp h in
    (u, (h, log ++ [call_actualize tcp udp]))
|}.

(** The calls one attribution makes, starting from table [h]. *)
Definition tcp_calls {H} {Hlookup : process_lookup H}
    (mem : list byte) (ip_header tcp_header : nat) (h : H) : list table_call :=
  (resolve_process_for_tcp (Hlookup := logged) mem ip_header tcp_header (h, [])).2.2.

Definition udp_calls {H} {Hlookup : process_lookup H}
    (mem : list byte) (ip_header udp_header : nat) (h : H) : list table_call :=
  (resolve_process_for_udp (Hlookup := logged) mem ip_header udp_header (h, [])).2.2.

(** ** Reading a frame's headers *)

Definition is_ipv4 (b : INTERMEDIATE_BUFFER) : Prop :=
  ntohs (load_u16 (m_IBuffer b) ether.h_proto) = ETH_P_IP.

Definition frame_h_dest (b : INTERMEDIATE_BUFFER) : vec byte 6 :=
  load_mac (m_IBuffer b) ether.h_dest.

Definition frame_h_source (b : INTERMEDIATE_BUFFER) : vec byte 6 :=
  load_mac (m_IBuffer b) ether.h_source.

Definition frame_ip_src (b : INTERMEDIATE_BUFFER) : ip_address_v4 :=
  load_in_addr (m_IBuffer b) (sizeof_ether_header + ip.ip_src).

Definition frame_ip_dst (b : INTERMEDIATE_BUFFER) : ip_address_v4 :=
  load_in_addr (m_IBuffer b) (sizeof_ether_header + ip.ip_dst).

Definition frame_ip_p (b : INTERMEDIATE_BUFFER) : Z :=
  load_u8 (m_IBuffer b) (sizeof_ether_header + ip.ip_p).

(** Where the callbacks look for the TCP or UDP header. *)
Definition frame_transport (b : INTERMEDIATE_BUFFER) : nat :=
  (sizeof_ether_header
   + sizeof_DWORD * Z.to_nat (ip_hl (m_IBuffer b) sizeof_ether_header))%nat.

(** The frame as the egress callback hands it to the checksum routines, and
    the one the ingress callback hands them. *)
Definition egress_rewritten {D} (this : rebind_router D) (b : INTERMEDIATE_BUFFER)
  : INTERMEDIATE_BUFFER :=
  set_IBuffer (egress_rewrite this 0 sizeof_ether_header (m_IBuffer b)) b.

Definition ingress_rewritten {D} (this : rebind_router D) (b : INTERMEDIATE_BUFFER)
  : INTERMEDIATE_BUFFER :=
  set_IBuffer (ingress_rewrite this 0 sizeof_ether_header (m_IBuffer b)) b.

(** The process the egress callback attributes a TCP or UDP frame to. *)
Definition frame_owner {H} {Hlookup : process_lookup H} (b : INTERMEDIATE_BUFFER)
  : table_op H (option network_process) :=
  if decide (frame_ip_p b = IPPROTO_UDP) then
    resolve_process_for_udp (m_IBuffer b) sizeof_ether_header (frame_transport b)
  else
    resolve_process_for_tcp (m_IBuffer b) sizeof_ether_header (frame_transport b).

(** The transport checksum routine chosen by protocol. *)
Definition RecalculateTransportChecksum {api : CNdisApi} (proto : Z)
  : INTERMEDIATE_BUFFER → INTERMEDIATE_BUFFER :=
  if decide (proto = IPPROTO_UDP) then RecalculateUDPChecksum
  else RecalculateTCPChecksum.

(** The action a callback returned, if it returned. *)
Definition verdict {D H} (o : outcome D H) : option packet_action :=
  match o with
  | Returned action _ _ _ => Some action
  | NullDereference => None
  end.



(** ** A session: 10.0.0.5 rebound to 10.0.0.9 for vpnclient.exe *)

Module scenario.
Definition bytes (l : list N) : list byte :=
  (λ n, default "000"%byte (Byte.of_N n)) <$> l.

Definition frame (l : list N) : INTERMEDIATE_BUFFER :=
  {| m_Length := Z.of_nat (length l);
     m_IBuffer := bytes l ++ replicate (MAX_ETHER_FRAME - length l) "000"%byte |}.

Definition octet (n : N) : byte := default "000"%byte (Byte.of_N n).

Definition ipv4 (a b c d : N) : ip_address_v4 := [# octet a; octet b; octet c; octet d].

Definition mac (a b c d e f : N) : mac_address :=
  {| data := [# octet a; octet b; octet c; octet d; octet e; octet f] |}.

Definition default_ip := ipv4 10 0 0 5.
Definition rebind_ip := ipv4 10 0 0 9.
Definition peer_ip := ipv4 93 184 216 34.
Definition default_mac := mac 0xaa 0xaa 0xaa 0xaa 0xaa 0xaa.
Definition rebind_mac := mac 0xbb 0xbb 0xbb 0xbb 0xbb 0xbb.
Definition gateway_mac := mac 0xcc 0xcc 0xcc 0xcc 0xcc 0xcc.

Definition default_if : network_adapter :=
  {| get_internal_name := str "\DEVICE\{11111111-AAAA}";
     get_ras_links := None;
     get_ndis_wan_type := ndis_wan_none;
     get_adapter := 0x100;
     get_hw_address := default_mac |}.

Definition rebind_if : network_adapter :=
  {| get_internal_name := str "\DEVICE\{22222222-BBBB}";
     get_ras_links := None;
     get_ndis_wan_type := ndis_wan_none;
     get_adapter := 0x200;
     get_hw_address := rebind_mac |}.

Definition wan_if : network_adapter :=
  {| get_internal_name := str "\DEVICE\NDISWANIP";
     get_ras_links := Some [ {| ip_address := ipv4 172 16 0 2 |} ];
     get_ndis_wan_type := ndis_wan_link 1;
     get_adapter := 0x300;
     get_hw_address := mac 0 0x53 0x45 0 0 0 |}.

Definition driver : recording_driver.t :=
  {| recording_driver.interfaces := [default_if; rebind_if; wan_if];
     recording_driver.started := [] |}.

(** A freshly constructed router, with the application name set. *)
Definition fresh : rebind_router recording_driver.t :=
  {| filter_ := driver;
     default_adapter_handle_ := INVALID_HANDLE_VALUE;
     rebind_adapter_handle_ := INVALID_HANDLE_VALUE;
     app_name_ := wstr "vpnclient.exe";
     rebind_src_hw_address_ := mac 0 0 0 0 0 0;
     default_src_hw_address_ := mac 0 0 0 0 0 0;
     rebind_gw_hw_address_ := mac 0 0 0 0 0 0;
     rebind_src_ip_address_ := ipv4 0 0 0 0;
     default_src_ip_address_ := ipv4 0 0 0 0;
     file_stream_ := [] |}.

Definition default_info : network_adapter_info :=
  {| get_if_type := 6;
     get_adapter_name := str "{11111111-AAAA}";
     get_unicast_address_list := [ {| ss_family := AF_INET; sin_addr := default_ip |} ];
     get_gateway_address_list :=
       [ {| gw_ss_family := AF_INET; gw_sin_addr := ipv4 10 0 0 1;
            hardware_address := mac 0 0x11 0x22 0x33 0x44 0x55 |} ] |}.

Definition rebind_info : network_adapter_info :=
  {| get_if_type := 71;
     get_adapter_name := str "{22222222-BBBB}";
     get_unicast_address_list := [ {| ss_family := AF_INET; sin_addr := rebind_ip |} ];
     get_gateway_address_list :=
       [ {| gw_ss_family := AF_INET; gw_sin_addr := ipv4 10 0 0 1;
            hardware_address := gateway_mac |} ] |}.


Definition missing_info : network_adapter_info :=
  {| get_if_type := 6;
     get_adapter_name := str "{33333333-CCCC}";
     get_unicast_address_list := [ {| ss_family := AF_INET; sin_addr := ipv4 10 0 0 7 |} ];
     get_gateway_address_list := [] |}.

Definition wan_info : network_adapter_info :=
  {| get_if_type := IF_TYPE_PPP;
     get_adapter_name := str "{44444444-DDDD}";
     get_unicast_address_list := [ {| ss_family := AF_INET; sin_addr := ipv4 172 16 0 2 |} ];
     get_gateway_address_list := [] |}.

(** The router once [set_ndis_interfaces_by_adapter_info] has succeeded. *)
Definition router : rebind_router recording_driver.t :=
  {| filter_ := driver;
     default_adapter_handle_ := 0x100;
     rebind_adapter_handle_ := 0x200;
     app_name_ := wstr "vpnclient.exe";
     rebind_src_hw_address_ := rebind_mac;
     default_src_hw_address_ := default_mac;
     rebind_gw_hw_address_ := gateway_mac;
     rebind_src_ip_address_ := rebind_ip;
     default_src_ip_address_ := default_ip;
     file_stream_ := [] |}.

Definition vpnclient : network_process := {| name := wstr "C:\apps\vpnclient.exe" |}.
Definition browser : network_process := {| name := wstr "C:\apps\browser.exe" |}.

Definition udp_local : ip_endpoint := {| endpoint_ip := default_ip; endpoint_port := 5000 |}.

Definition tcp_flow : ip_session :=
  {| local_ip := default_ip; remote_ip := peer_ip;
     local_port := 49152; remote_port := 443 |}.

Definition system_tables owner : snapshot_table.t :=
  {| snapshot_table.system_tcp := [(tcp_flow, owner)];
     snapshot_table.system_udp := [(udp_local, owner)];
     snapshot_table.tcp_to_app := [(tcp_flow, owner)];
     snapshot_table.udp_to_app := [(udp_local, owner)] |}.

(** The tables while vpnclient.exe owns both flows. *)
Definition tables : snapshot_table.t := system_tables vpnclient.

(** The flows exist in the system but the snapshot predates them. *)
Definition stale_tables owner : snapshot_table.t :=
  {| snapshot_table.system_tcp := [(tcp_flow, owner)];
     snapshot_table.system_udp := [(udp_local, owner)];
     snapshot_table.tcp_to_app := [];
     snapshot_table.udp_to_app := [] |}.

(** No process owns the flows. *)
Definition empty_tables : snapshot_table.t :=
  {| snapshot_table.system_tcp := [];
     snapshot_table.system_udp := [];
     snapshot_table.tcp_to_app := [];
     snapshot_table.udp_to_app := [] |}.

(** UDP 10.0.0.5:5000 → 93.184.216.34:53, four bytes of payload. *)
Definition udp_out : INTERMEDIATE_BUFFER :=
  frame [0x00; 0x11; 0x22; 0x33; 0x44; 0x55;  0xaa; 0xaa; 0xaa; 0xaa; 0xaa; 0xaa;  0x08; 0x00;
         0x45; 0x00; 0x00; 0x20;  0x12; 0x34; 0x00; 0x00;  0x40; 0x11; 0x00; 0x00;
         10; 0; 0; 5;  93; 184; 216; 34;
         0x13; 0x88; 0x00; 0x35;  0x00; 0x0c; 0x00; 0x00;
         0x70; 0x69; 0x6e; 0x67]%N.

(** TCP SYN 10.0.0.5:49152 → 93.184.216.34:443. *)
Definition tcp_out : INTERMEDIATE_BUFFER :=
  frame [0x00; 0x11; 0x22; 0x33; 0x44; 0x55;  0xaa; 0xaa; 0xaa; 0xaa; 0xaa; 0xaa;  0x08; 0x00;
         0x45; 0x00; 0x00; 0x28;  0x12; 0x35; 0x00; 0x00;  0x40; 0x06; 0x00; 0x00;
         10; 0; 0; 5;  93; 184; 216; 34;
         0xc0; 0x00; 0x01; 0xbb;  0; 0; 0; 4;  0; 0; 0; 0;
         0x50; 0x02; 0xff; 0xff;  0x00; 0x00; 0x00; 0x00]%N.

(** ICMP echo request from 10.0.0.5. *)
Definition icmp_out : INTERMEDIATE_BUFFER :=
  frame [0x00; 0x11; 0x22; 0x33; 0x44; 0x55;  0xaa; 0xaa; 0xaa; 0xaa; 0xaa; 0xaa;  0x08; 0x00;
         0x45; 0x00; 0x00; 0x1c;  0x12; 0x36; 0x00; 0x00;  0x40; 0x01; 0x00; 0x00;
         10; 0; 0; 5;  93; 184; 216; 34;
         0x08; 0x00; 0xf7; 0xff;  0x00; 0x00; 0x00; 0x00]%N.

(** ARP request: not IPv4. *)
Definition arp_out : INTERMEDIATE_BUFFER :=
  frame [0xff; 0xff; 0xff; 0xff; 0xff; 0xff;  0xaa; 0xaa; 0xaa; 0xaa; 0xaa; 0xaa;  0x08; 0x06;
         0x00; 0x01; 0x08; 0x00; 0x06; 0x04; 0x00; 0x01;
         0xaa; 0xaa; 0xaa; 0xaa; 0xaa; 0xaa;  10; 0; 0; 5;
         0; 0; 0; 0; 0; 0;  10; 0; 0; 1]%N.


End scenario.

(** ** Observations on results *)

(** [needle] occurs in [hay] as a contiguous part. *)
Definition contains {A} (hay needle : list A) : Prop :=
  ∃ pre post, hay = pre ++ needle ++ post.

(** What a callback hands back to the filter, leaving the process table
    aside. *)
Definition returned {D H} (o : outcome D H)
  : option (packet_action * INTERMEDIATE_BUFFER * rebind_router D) :=
  match o with
  | Returned action buffer this _ => Some (action, buffer, this)
  | NullDereference => None
  end.

(** Two states of the router that differ at most in the capture file. *)
Definition same_configuration {D} (this this' : rebind_router D) : Prop :=
  filter_ this' = filter_ this
  ∧ default_adapter_handle_ this' = default_adapter_handle_ this
  ∧ rebind_adapter_handle_ this' = rebind_adapter_handle_ this
  ∧ app_name_ this' = app_name_ this
  ∧ rebind_src_hw_address_ this' = rebind_src_hw_address_ this
  ∧ default_src_hw_address_ this' = default_src_hw_address_ this
  ∧ rebind_gw_hw_address_ this' = rebind_gw_hw_address_ this
  ∧ rebind_src_ip_address_ this' = rebind_src_ip_address_ this
  ∧ default_src_ip_address_ this' = default_src_ip_address_ this.

(** The last [AF_INET] entry of an address list and of a gateway list. *)
Definition last_inet_unicast (l : list ip_address_info) : option ip_address_info :=
  last (filter (λ ip, ss_family ip = AF_INET) l).

Definition last_inet_gw (l : list ip_gateway_info) : option ip_gateway_info :=
  last (filter (λ gw, gw_ss_family gw = AF_INET) l).

(** ** The calls made to the capture driver *)

Inductive driver_call :=
| call_start_filter (adapter : HANDLE) (index : nat)
| call_stop_filter (index : nat).

#[global] Instance driver_call_eq_dec : EqDecision driver_call.
Proof. solve_decision. Defined.

(** Any capture driver, with every start and stop appended to a log. *)
Definition logged_driver {D} {Hdriver : capture_driver D}
  : capture_driver (D * list driver_call) := {|
  get_interface_list '(d, _) := get_interface_list d;
  start_filter adapter index '(d, log) :=
    let '(started, d) := start_filter adapter index d in
    (started, (d, log ++ [call_start_filter adapter index]));
  stop_filter index '(d, log) :=
    (stop_filter index d, log ++ [call_stop_filter index]);
  has_address := has_address
|}.

(** The same router over another driver state. *)
Definition router_over {D D'} (f : D') (this : rebind_router D) : rebind_router D' :=
  {| filter_ := f;
     default_adapter_handle_ := default_adapter_handle_ this;
     rebind_adapter_handle_ := rebind_adapter_handle_ this;
     app_name_ := app_name_ this;
     rebind_src_hw_address_ := rebind_src_hw_address_ this;
     default_src_hw_address_ := default_src_hw_address_ this;
     rebind_gw_hw_address_ := rebind_gw_hw_address_ this;
     rebind_src_ip_address_ := rebind_src_ip_address_ this;
     default_src_ip_address_ := default_src_ip_address_ this;
     file_stream_ := file_stream_ this |}.

(** The driver calls of one [start()]. *)
Definition start_calls {D} {Hdriver : capture_driver D} (this : rebind_router D)
  : list driver_call :=
  (filter_ (start (Hdriver := logged_driver) (router_over (filter_ this, []) this)).2).2.

(** A driver on which only the listed adapters can be filtered. *)
Module selective_driver.
Record t := {
  interfaces : list network_adapter;
  started : list (HANDLE * nat)
}.

#[global] Instance driver : capture_driver t := {
  get_interface_list := interfaces;
  start_filter adapter index d :=
    if bool_decide (adapter ∈ get_adapter <$> interfaces d) then
      (true, {| interfaces := interfaces d; started := started d ++ [(adapter, index)] |})
    else (false, d);
  stop_filter index d :=
    {| interfaces := interfaces d;
       started := filter (λ entry, entry.2 ≠ index) (started d) |};
  has_address info address :=
    bool_decide (address ∈ sin_addr <$> get_unicast_address_list info)
}.
End selective_driver.

(** ** The main function *)

(** [size_t] arithmetic on the 64-bit target, and [operator[]] of a vector:
    [None] outside the vector. *)
Definition size_t_sub (a b : Z) : Z := (a - b) mod 2 ^ 64.

Definition vector_at {A} (v : list A) (i : Z) : option A :=
  if decide (0 ≤ i < Z.of_nat (length v)) then v !! Z.to_nat i else None.

(** How [main] ends its choice of the rebind adapter: an adapter, the
    message "Wrong parameter was selected. Out of range.", or an access
    outside [routable_adapters]. *)
Inductive selection :=
| selected (rebind_adapter : network_adapter_info)
| wrong_parameter
| index_out_of_range.

(** Lines 523 to 541 of [main]: [typed_idx] is the value of [idx] after
    [std::cin >> idx], read only when there are several alternatives. *)
Definition select_rebind_adapter
    (routable_adapters : list network_adapter_info) (typed_idx : Z) : selection :=
  let idx := if decide (1 < length routable_adapters)%nat then typed_idx else 1 in
  if decide (Z.of_nat (length routable_adapters) < idx) then wrong_parameter
  else match vector_at routable_adapters (size_t_sub idx 1) with
       | Some rebind_adapter => selected rebind_adapter
       | None => index_out_of_range
       end.

Section main_function.
Context {D : Type} {Hdriver : capture_driver D}.

(** [filter_->IsDriverLoaded()] and the equality of
    [iphelper::network_adapter_info], both defined outside this source
    file. *)
Variable IsDriverLoaded : D → bool.
Variable adapter_eq : network_adapter_info → network_adapter_info → bool.

(** The alternatives to the default interface:
    [erase(remove_if(..., default_if == a), end())]. *)
Definition alternatives (default_if : network_adapter_info)
    (routable_adapters : list network_adapter_info) : list network_adapter_info :=
  filter (λ a, adapter_eq default_if a = false) routable_adapters.

(** [main] from the constructed router [rebind] on, given what
    [get_routable_interfaces] and [get_best_interface] returned and what the
    user typed.  The result is the exit code and the router as its
    destructor leaves it, [None] standing for an access outside a vector. *)
Definition main (routable_adapters : list network_adapter_info)
    (default_adapter : option network_adapter_info)
    (app_name_w : std_wstring) (typed_idx : Z) (rebind : rebind_router D)
  : option (Z * rebind_router D) :=
  if negb (IsDriverLoaded (filter_ rebind)) then Some (1, stop rebind)
  else
    match default_adapter with
    | None => Some (0, stop rebind)
    | Some default_if =>
        if decide (length routable_adapters = 1%nat) then Some (0, stop rebind)
        else
          let routable_adapters := alternatives default_if routable_adapters in
          let rebind := set_application_name app_name_w rebind in
          match select_rebind_adapter routable_adapters typed_idx with
          | wrong_parameter => Some (0, stop rebind)
          | index_out_of_range => None
          | selected rebind_adapter =>
              '(_, rebind) ← main_configure_and_start default_if rebind_adapter rebind;
              Some (0, stop rebind)
          end
    end.
End main_function.

(** ** A run of the main function *)

Module console.
Import scenario.

(** Interfaces compared by adapter name. *)
Definition same_adapter (a b : network_adapter_info) : bool :=
  bool_decide (get_adapter_name a = get_adapter_name b).

Definition loaded (d : recording_driver.t) : bool := true.

(** An interface with an IPv6 address only (family 23), on the rebind
    adapter. *)
Definition rebind_info_no_inet : network_adapter_info :=
  {| get_if_type := 71;
     get_adapter_name := str "{22222222-BBBB}";
     get_unicast_address_list := [ {| ss_family := 23; sin_addr := ipv4 0 0 0 1 |} ];
     get_gateway_address_list := [] |}.

Definition routable : list network_adapter_info :=
  [default_info; rebind_info; missing_info].

(** The router once configured, over a driver that cannot filter the
    rebind adapter. *)
Definition half_startable : rebind_router selective_driver.t :=
  router_over {| selective_driver.interfaces := [default_if];
                 selective_driver.started := [] |} router.
End console.

(** * Properties *)

(** ** Substring search *)

Section find_facts.
Context {A : Type} `{EqDecision A}.
Implicit Types (hay needle pre post : list A).

Lemma starts_with_prefix needle hay :
  starts_with needle hay = true ↔ ∃ post, hay = needle ++ post.
Proof.
  revert hay. induction needle as [|x needle IH]; intros hay; simpl.
  - split; eauto.
  - destruct hay as [|y hay]; simpl.
    + split; [done | intros [post Hpost]; discriminate].
    + rewrite andb_true_iff, bool_decide_eq_true, IH. split.
      * intros [-> [post ->]]. eauto.
      * intros [post Hpost]. injection Hpost as -> ->. eauto.
Qed.

Lemma find_from_Some hay needle pos i :
  find_from hay needle pos = Some i →
  ∃ pre post, hay = pre ++ needle ++ post ∧ i = (pos + length pre)%nat.
Proof.
  revert pos. induction hay as [|y hay IH]; intros pos; simpl.
  - destruct (starts_with needle []) eqn:Hs; [|done].
    intros [= <-]. apply starts_with_prefix in Hs as [post ->].
    exists [], post. simpl. split; [done | lia].
  - destruct (starts_with needle (y :: hay)) eqn:Hs.
    + intros [= <-]. apply starts_with_prefix in Hs as [post ->].
      exists [], post. simpl. split; [done | lia].
    + intros (pre & post & -> & ->)%IH.
      exists (y :: pre), post. simpl. split; [done | lia].
Qed.

Lemma find_from_None hay needle pos :
  find_from hay needle pos = None → ∀ pre post, hay ≠ pre ++ needle ++ post.
Proof.
  revert pos. induction hay as [|y hay IH]; intros pos; simpl.
  - destruct (starts_with needle []) eqn:Hs; [done|].
    intros _ pre post Heq. symmetry in Heq.
    apply app_eq_nil in Heq as [-> [-> ->]%app_eq_nil]. done.
  - destruct (starts_with needle (y :: hay)) eqn:Hs; [done|].
    intros Hrest pre post Heq. destruct pre as [|z pre]; simpl in Heq.
    + assert (starts_with needle (y :: hay) = true) as Hs'
        by (apply starts_with_prefix; eauto).
      congruence.
    + injection Heq as -> ->. by eapply IH.
Qed.

(** [find] differs from [npos] exactly when the needle is a contiguous
    part of the receiver. *)
Lemma find_npos_iff hay needle :
  find hay needle ≠ npos ↔ ∃ pre post, hay = pre ++ needle ++ post.
Proof.
  unfold find, npos. destruct (find_from hay needle 0) as [i|] eqn:Hf.
  - split; [|done]. intros _.
    apply find_from_Some in Hf as (pre & post & -> & _). eauto.
  - split; [done|]. intros (pre & post & ->).
    by eapply find_from_None in Hf.
Qed.

Lemma find_from_lowest hay needle pos i :
  find_from hay needle pos = Some i →
  ∀ pre post, hay = pre ++ needle ++ post → (i ≤ pos + length pre)%nat.
Proof.
  revert pos. induction hay as [|y hay IH]; intros pos; simpl.
  - destruct (starts_with needle []); [|done]. intros [= <-] pre post _. lia.
  - destruct (starts_with needle (y :: hay)) eqn:Hs.
    + intros [= <-] pre post _. lia.
    + intros Hrest pre post Heq. destruct pre as [|z pre]; simpl in Heq.
      * assert (starts_with needle (y :: hay) = true) as Hs'
          by (apply starts_with_prefix; eauto).
        congruence.
      * injection Heq as -> ->. specialize (IH _ Hrest pre post eq_refl).
        simpl. lia.
Qed.

(** The position returned is that of the first occurrence. *)
Lemma find_lowest hay needle i :
  find hay needle = Some i →
  ∃ pre post, hay = pre ++ needle ++ post ∧ length pre = i
    ∧ ∀ pre' post', hay = pre' ++ needle ++ post' → (i ≤ length pre')%nat.
Proof.
  unfold find. intros Hf.
  destruct (find_from_Some _ _ _ _ Hf) as (pre & post & Hhay & ->).
  exists pre, post. repeat split; [done|].
  intros pre' post' Hhay'. by apply (find_from_lowest _ _ _ _ Hf pre' post').
Qed.
End find_facts.

(** ** Reads after writes *)

Section memory_facts.
Implicit Types (mem : list byte) (off : nat).

Lemma length_memcpy {n} off (src : vec byte n) mem :
  length (memcpy off src mem) = length mem.
Proof. apply length_inserts. Qed.

Lemma load8_memcpy_inside {n} off (src : vec byte n) mem j :
  (off ≤ j < off + n)%nat → (j < length mem)%nat →
  load8 (memcpy off src mem) j = default "000"%byte (vec_to_list src !! (j - off)%nat).
Proof.
  intros Hj Hlen. unfold load8, memcpy.
  by rewrite list_lookup_inserts by (rewrite ?length_vec_to_list; lia).
Qed.

Lemma load8_memcpy_outside {n} off (src : vec byte n) mem j :
  (j < off ∨ off + n ≤ j)%nat →
  load8 (memcpy off src mem) j = load8 mem j.
Proof.
  intros [Hj|Hj]; unfold load8, memcpy.
  - by rewrite list_lookup_inserts_lt.
  - by rewrite list_lookup_inserts_ge by (rewrite length_vec_to_list; lia).
Qed.

Lemma load_in_addr_memcpy off (a : ip_address_v4) mem :
  (off + 4 ≤ length mem)%nat → load_in_addr (memcpy off a mem) off = a.
Proof.
  intros Hlen. unfold load_in_addr.
  rewrite !load8_memcpy_inside by lia.
  replace (off - off)%nat with 0%nat by lia.
  replace (off + 1 - off)%nat with 1%nat by lia.
  replace (off + 2 - off)%nat with 2%nat by lia.
  replace (off + 3 - off)%nat with 3%nat by lia.
  unfold ip_address_v4 in a. by inv_vec a.
Qed.

Lemma load_mac_memcpy off (a : vec byte 6) mem :
  (off + 6 ≤ length mem)%nat → load_mac (memcpy off a mem) off = a.
Proof.
  intros Hlen. unfold load_mac.
  rewrite !load8_memcpy_inside by lia.
  replace (off - off)%nat with 0%nat by lia.
  replace (off + 1 - off)%nat with 1%nat by lia.
  replace (off + 2 - off)%nat with 2%nat by lia.
  replace (off + 3 - off)%nat with 3%nat by lia.
  replace (off + 4 - off)%nat with 4%nat by lia.
  replace (off + 5 - off)%nat with 5%nat by lia.
  by inv_vec a.
Qed.

Lemma load_in_addr_memcpy_outside {n} off (src : vec byte n) mem off' :
  (off' + 4 ≤ off ∨ off + n ≤ off')%nat →
  load_in_addr (memcpy off src mem) off' = load_in_addr mem off'.
Proof.
  intros Hdisj. unfold load_in_addr. by rewrite !load8_memcpy_outside by lia.
Qed.

Lemma load_mac_memcpy_outside {n} off (src : vec byte n) mem off' :
  (off' + 6 ≤ off ∨ off + n ≤ off')%nat →
  load_mac (memcpy off src mem) off' = load_mac mem off'.
Proof.
  intros Hdisj. unfold load_mac. by rewrite !load8_memcpy_outside by lia.
Qed.

Lemma load_u8_memcpy_outside {n} off (src : vec byte n) mem j :
  (j < off ∨ off + n ≤ j)%nat →
  load_u8 (memcpy off src mem) j = load_u8 mem j.
Proof. intros Hj. unfold load_u8. by rewrite load8_memcpy_outside. Qed.

Lemma load_u16_memcpy_outside {n} off (src : vec byte n) mem j :
  (j + 2 ≤ off ∨ off + n ≤ j)%nat →
  load_u16 (memcpy off src mem) j = load_u16 mem j.
Proof. intros Hj. unfold load_u16. by rewrite !load_u8_memcpy_outside by lia. Qed.
End memory_facts.

(** ** Attribution *)

Section attribution_facts.
Context {H : Type} {Hlookup : process_lookup H}.
Implicit Types (mem : list byte) (h : H) (log : list table_call).

(** Logging changes neither the answer nor the table. *)
Lemma resolve_tcp_logged mem ip_header tcp_header h log :
  let '(process, (h', _)) :=
    resolve_process_for_tcp (Hlookup := logged) mem ip_header tcp_header (h, log) in
  resolve_process_for_tcp mem ip_header tcp_header h = (process, h').
Proof.
  unfold resolve_process_for_tcp, mbind, table_bind, mret, table_ret; simpl.
  destruct (lookup_process_for_tcp false _ h) as [[p|] h1]; [done|].
  destruct (actualize true false h1) as [[] h2].
  by destruct (lookup_process_for_tcp true _ h2) as [q h3].
Qed.

Lemma resolve_udp_logged mem ip_header udp_header h log :
  let '(process, (h', _)) :=
    resolve_process_for_udp (Hlookup := logged) mem ip_header udp_header (h, log) in
  resolve_process_for_udp mem ip_header udp_header h = (process, h').
Proof.
  unfold resolve_process_for_udp, mbind, table_bind, mret, table_ret; simpl.
  destruct (lookup_process_for_udp false _ h) as [[p|] h1]; [done|].
  destruct (actualize false true h1) as [[] h2].
  by destruct (lookup_process_for_udp true _ h2) as [q h3].
Qed.

(** C6. An attribution first looks the flow up with template argument
    [false] and no refresh before it.  On a hit that is the only call.  On a
    miss it refreshes one table (the TCP table only for a TCP flow, the UDP
    table only for a UDP flow) and looks the same key up once more, and does
    nothing else.  The TCP key is (source IP, destination IP, source port,
    destination port); the UDP key is (source IP, source port). *)
Theorem resolve_lookup_refresh_retry mem ip_header tcp_header udp_header h :
  let session :=
    {| local_ip := load_in_addr mem (ip_header + ip.ip_src);
       remote_ip := load_in_addr mem (ip_header + ip.ip_dst);
       local_port := ntohs (load_u16 mem (tcp_header + transport.th_sport));
       remote_port := ntohs (load_u16 mem (tcp_header + transport.th_dport)) |} in
  let endpoint :=
    {| endpoint_ip := load_in_addr mem (ip_header + ip.ip_src);
       endpoint_port := ntohs (load_u16 mem (udp_header + transport.th_sport)) |} in
  tcp_calls mem ip_header tcp_header h =
    match (lookup_process_for_tcp false session h).1 with
    | Some _ => [call_lookup_tcp false session]
    | None => [call_lookup_tcp false session; call_actualize true false;
               call_lookup_tcp true session]
    end
  ∧ udp_calls mem ip_header udp_header h =
    match (lookup_process_for_udp false endpoint h).1 with
    | Some _ => [call_lookup_udp false endpoint]
    | None => [call_lookup_udp false endpoint; call_actualize false true;
               call_lookup_udp true endpoint]
    end.
Proof.
  intros session endpoint. split.
  - unfold tcp_calls, resolve_process_for_tcp, mbind, table_bind, mret, table_ret.
    change (tcp_session mem ip_header tcp_header) with session.
    generalize session as key. intros key. simpl.
    destruct (lookup_process_for_tcp false key h) as [[p|] h1]; simpl; [done|].
    destruct (actualize true false h1) as [[] h2]; simpl.
    by destruct (lookup_process_for_tcp true key h2) as [q h3].
  - unfold udp_calls, resolve_process_for_udp, mbind, table_bind, mret, table_ret.
    change (udp_endpoint mem ip_header udp_header) with endpoint.
    generalize endpoint as key. intros key. simpl.
    destruct (lookup_process_for_udp false key h) as [[p|] h1]; simpl; [done|].
    destruct (actualize false true h1) as [[] h2]; simpl.
    by destruct (lookup_process_for_udp true key h2) as [q h3].
Qed.

(** What an attribution returns: the first answer if there is one, else the
    answer of the second lookup on the refreshed table. *)
Lemma resolve_process_for_tcp_result mem ip_header tcp_header h :
  resolve_process_for_tcp mem ip_header tcp_header h =
    let session := tcp_session mem ip_header tcp_header in
    match lookup_process_for_tcp false session h with
    | (Some process, h1) => (Some process, h1)
    | (None, h1) => lookup_process_for_tcp true session (actualize true false h1).2
    end.
Proof.
  unfold resolve_process_for_tcp, mbind, table_bind, mret, table_ret. simpl.
  destruct (lookup_process_for_tcp false _ h) as [[p|] h1]; [done|].
  by destruct (actualize true false h1) as [[] h2].
Qed.

Lemma resolve_process_for_udp_result mem ip_header udp_header h :
  resolve_process_for_udp mem ip_header udp_header h =
    let endpoint := udp_endpoint mem ip_header udp_header in
    match lookup_process_for_udp false endpoint h with
    | (Some process, h1) => (Some process, h1)
    | (None, h1) => lookup_process_for_udp true endpoint (actualize false true h1).2
    end.
Proof.
  unfold resolve_process_for_udp, mbind, table_bind, mret, table_ret. simpl.
  destruct (lookup_process_for_udp false _ h) as [[p|] h1]; [done|].
  by destruct (actualize false true h1) as [[] h2].
Qed.
End attribution_facts.

(** ** The rewritten fields *)

(** Side conditions on field offsets: unfold the layout and compute. *)
Ltac layout :=
  cbv [sizeof_ether_header sizeof_DWORD MAX_ETHER_FRAME
       ether.h_dest ether.h_source ether.h_proto
       ip.ip_hl_v ip.ip_p ip.ip_sum ip.ip_src ip.ip_dst
       transport.th_sport transport.th_dport] in *;
  simpl; lia.

Section rewrite_facts.
Context {D : Type}.
Implicit Types (this : rebind_router D) (buffer : INTERMEDIATE_BUFFER).

Lemma egress_rewritten_wf this buffer :
  buffer_wf buffer → buffer_wf (egress_rewritten this buffer).
Proof.
  unfold buffer_wf, egress_rewritten, egress_rewrite. simpl.
  by rewrite !length_memcpy.
Qed.

Lemma ingress_rewritten_wf this buffer :
  buffer_wf buffer → buffer_wf (ingress_rewritten this buffer).
Proof.
  unfold buffer_wf, ingress_rewritten, ingress_rewrite. simpl.
  by rewrite !length_memcpy.
Qed.

Lemma egress_rewritten_fields this buffer :
  buffer_wf buffer →
  frame_ip_src (egress_rewritten this buffer) = rebind_src_ip_address_ this
  ∧ frame_h_source (egress_rewritten this buffer) = data (rebind_src_hw_address_ this)
  ∧ frame_h_dest (egress_rewritten this buffer) = data (rebind_gw_hw_address_ this).
Proof.
  unfold buffer_wf, MAX_ETHER_FRAME. intros Hlen.
  unfold frame_ip_src, frame_h_source, frame_h_dest, egress_rewritten, egress_rewrite.
  simpl. split_and!.
  - do 2 rewrite load_in_addr_memcpy_outside by layout.
    apply load_in_addr_memcpy. layout.
  - rewrite load_mac_memcpy_outside by layout.
    apply load_mac_memcpy. rewrite length_memcpy. layout.
  - apply load_mac_memcpy. rewrite !length_memcpy. layout.
Qed.

(** Only the two MAC addresses and the source address are written. *)
Lemma egress_rewritten_elsewhere this buffer (j : nat) :
  (12 ≤ j < 26 ∨ 30 ≤ j)%nat →
  load8 (m_IBuffer (egress_rewritten this buffer)) j = load8 (m_IBuffer buffer) j.
Proof.
  intros Hj. unfold egress_rewritten, egress_rewrite. simpl.
  by rewrite !load8_memcpy_outside by layout.
Qed.

Lemma ingress_rewritten_fields this buffer :
  buffer_wf buffer →
  frame_ip_dst (ingress_rewritten this buffer) = default_src_ip_address_ this
  ∧ frame_h_dest (ingress_rewritten this buffer) = data (default_src_hw_address_ this)
  ∧ frame_h_source (ingress_rewritten this buffer) = frame_h_source buffer.
Proof.
  unfold buffer_wf, MAX_ETHER_FRAME. intros Hlen.
  unfold frame_ip_dst, frame_h_source, frame_h_dest, ingress_rewritten, ingress_rewrite.
  simpl. split_and!.
  - rewrite load_in_addr_memcpy_outside by layout.
    apply load_in_addr_memcpy. layout.
  - apply load_mac_memcpy. rewrite length_memcpy. layout.
  - by rewrite !load_mac_memcpy_outside by layout.
Qed.

(** Only the destination MAC and the destination address are written. *)
Lemma ingress_rewritten_elsewhere this buffer (j : nat) :
  (6 ≤ j < 30 ∨ 34 ≤ j)%nat →
  load8 (m_IBuffer (ingress_rewritten this buffer)) j = load8 (m_IBuffer buffer) j.
Proof.
  intros Hj. unfold ingress_rewritten, ingress_rewrite. simpl.
  by rewrite !load8_memcpy_outside by layout.
Qed.
End rewrite_facts.

(** ** The callbacks, case by case *)

Section callbacks_facts.
Context {D H : Type} {Hlookup : process_lookup H} {api : CNdisApi}.
Implicit Types (this : rebind_router D) (buffer : INTERMEDIATE_BUFFER) (h : H).

(** The callbacks in terms of the header fields. *)
Lemma egress_lambda_fields this buffer h :
  egress_lambda this buffer h =
    if decide (is_ipv4 buffer) then
      if decide (frame_ip_src buffer ≠ default_src_ip_address_ this) then
        Returned pass buffer this h
      else if decide (frame_ip_p buffer = IPPROTO_UDP) then
        match resolve_process_for_udp (m_IBuffer buffer) sizeof_ether_header
                (frame_transport buffer) h with
        | (None, _) => NullDereference
        | (Some process, h') =>
            if decide (find (name process) (app_name_ this) ≠ npos) then
              let final :=
                RecalculateIPChecksum (RecalculateUDPChecksum (egress_rewritten this buffer)) in
              Returned route final (pcap_write final this) h'
            else Returned pass buffer this h'
        end
      else if decide (frame_ip_p buffer = IPPROTO_TCP) then
        match resolve_process_for_tcp (m_IBuffer buffer) sizeof_ether_header
                (frame_transport buffer) h with
        | (None, _) => NullDereference
        | (Some process, h') =>
            if decide (find (name process) (app_name_ this) ≠ npos) then
              let final :=
                RecalculateIPChecksum (RecalculateTCPChecksum (egress_rewritten this buffer)) in
              Returned route final (pcap_write final this) h'
            else Returned pass buffer this h'
        end
      else Returned pass buffer this h
    else Returned pass buffer this h.
Proof.
  unfold egress_lambda. cbv zeta.
  change (ntohs (load_u16 (m_IBuffer buffer) (0 + ether.h_proto)) = ETH_P_IP)
    with (is_ipv4 buffer).
  destruct (decide (is_ipv4 buffer)); [|done].
  change (load_in_addr (m_IBuffer buffer) (0 + sizeof_ether_header + ip.ip_src))
    with (frame_ip_src buffer).
  destruct (decide (frame_ip_src buffer ≠ default_src_ip_address_ this)); [done|].
  change (load_u8 (m_IBuffer buffer) (0 + sizeof_ether_header + ip.ip_p))
    with (frame_ip_p buffer).
  destruct (decide (frame_ip_p buffer = IPPROTO_UDP)).
  - change (resolve_process_for_udp (m_IBuffer buffer) (0 + sizeof_ether_header) _ h)
      with (resolve_process_for_udp (m_IBuffer buffer) sizeof_ether_header
              (frame_transport buffer) h).
    by destruct (resolve_process_for_udp _ _ _ h) as [[process|] h'].
  - destruct (decide (frame_ip_p buffer = IPPROTO_TCP)); [|done].
    change (resolve_process_for_tcp (m_IBuffer buffer) (0 + sizeof_ether_header) _ h)
      with (resolve_process_for_tcp (m_IBuffer buffer) sizeof_ether_header
              (frame_transport buffer) h).
    by destruct (resolve_process_for_tcp _ _ _ h) as [[process|] h'].
Qed.

Lemma ingress_lambda_fields this buffer :
  ingress_lambda this buffer =
    if decide (is_ipv4 buffer) then
      if decide (frame_ip_dst buffer ≠ rebind_src_ip_address_ this) then
        (pass, buffer, this)
      else if decide (frame_ip_p buffer = IPPROTO_UDP ∨ frame_ip_p buffer = IPPROTO_TCP) then
        let rewritten := ingress_rewritten this buffer in
        let recomputed :=
          if decide (frame_ip_p rewritten = IPPROTO_UDP) then
            RecalculateUDPChecksum rewritten
          else if decide (frame_ip_p rewritten = IPPROTO_TCP) then
            RecalculateTCPChecksum rewritten
          else rewritten in
        let final := RecalculateIPChecksum recomputed in
        (route, final, pcap_write final this)
      else (pass, buffer, this)
    else (pass, buffer, this).
Proof.
  unfold ingress_lambda. cbv zeta.
  change (ntohs (load_u16 (m_IBuffer buffer) (0 + ether.h_proto)) = ETH_P_IP)
    with (is_ipv4 buffer).
  destruct (decide (is_ipv4 buffer)); [|done].
  change (load_in_addr (m_IBuffer buffer) (0 + sizeof_ether_header + ip.ip_dst))
    with (frame_ip_dst buffer).
  destruct (decide (frame_ip_dst buffer ≠ rebind_src_ip_address_ this)); [done|].
  change (load_u8 (m_IBuffer buffer) (0 + sizeof_ether_header + ip.ip_p))
    with (frame_ip_p buffer).
  destruct (decide (frame_ip_p buffer = IPPROTO_UDP ∨ frame_ip_p buffer = IPPROTO_TCP));
    [|done].
  reflexivity.
Qed.

Lemma egress_not_ipv4 this buffer h :
  ¬ is_ipv4 buffer → egress_lambda this buffer h = Returned pass buffer this h.
Proof. intros Hip. rewrite egress_lambda_fields. by rewrite decide_False. Qed.

Lemma egress_other_source this buffer h :
  frame_ip_src buffer ≠ default_src_ip_address_ this →
  egress_lambda this buffer h = Returned pass buffer this h.
Proof.
  intros Hsrc. rewrite egress_lambda_fields.
  case_decide; [|done]. by rewrite decide_True.
Qed.

Lemma egress_other_protocol this buffer h :
  frame_ip_p buffer ≠ IPPROTO_UDP → frame_ip_p buffer ≠ IPPROTO_TCP →
  egress_lambda this buffer h = Returned pass buffer this h.
Proof.
  intros Hudp Htcp. rewrite egress_lambda_fields.
  repeat case_decide; done.
Qed.

(** A TCP or UDP frame sent from the default address: the owner decides. *)
Lemma egress_attributed this buffer h :
  is_ipv4 buffer →
  frame_ip_src buffer = default_src_ip_address_ this →
  frame_ip_p buffer = IPPROTO_UDP ∨ frame_ip_p buffer = IPPROTO_TCP →
  egress_lambda this buffer h =
    match frame_owner buffer h with
    | (None, _) => NullDereference
    | (Some process, h') =>
        if decide (find (name process) (app_name_ this) ≠ npos) then
          let final :=
            RecalculateIPChecksum
              (RecalculateTransportChecksum (frame_ip_p buffer)
                 (egress_rewritten this buffer)) in
          Returned route final (pcap_write final this) h'
        else Returned pass buffer this h'
    end.
Proof.
  intros Hip Hsrc Hproto. rewrite egress_lambda_fields.
  unfold frame_owner, RecalculateTransportChecksum.
  rewrite decide_True by done. rewrite decide_False by (by intros []).
  destruct (decide (frame_ip_p buffer = IPPROTO_UDP)) as [Hudp|Hudp]; [done|].
  destruct Hproto as [|Htcp]; [done|]. by rewrite decide_True.
Qed.

Lemma ingress_not_ipv4 this buffer :
  ¬ is_ipv4 buffer → ingress_lambda this buffer = (pass, buffer, this).
Proof. intros Hip. rewrite ingress_lambda_fields. by rewrite decide_False. Qed.


Lemma ingress_other_protocol this buffer :
  frame_ip_p buffer ≠ IPPROTO_UDP → frame_ip_p buffer ≠ IPPROTO_TCP →
  ingress_lambda this buffer = (pass, buffer, this).
Proof.
  intros Hudp Htcp. rewrite ingress_lambda_fields.
  destruct (decide (is_ipv4 buffer)); [|done].
  destruct (decide (frame_ip_dst buffer ≠ rebind_src_ip_address_ this)); [done|].
  by rewrite decide_False by (by intros []).
Qed.



Lemma egress_unresolved this buffer h h' :
  is_ipv4 buffer →
  frame_ip_src buffer = default_src_ip_address_ this →
  frame_ip_p buffer = IPPROTO_UDP ∨ frame_ip_p buffer = IPPROTO_TCP →
  frame_owner buffer h = (None, h') →
  egress_lambda this buffer h = NullDereference.
Proof.
  intros Hip Hsrc Hproto Howner.
  by rewrite egress_attributed, Howner by done.
Qed.





(** C7. For a TCP or UDP frame sent from the default address and
    attributed to a process, the egress callback routes the frame exactly
    when the application name occurs, code unit for code unit, as a
    contiguous part of the process's image name, and passes it otherwise. *)
Theorem process_match_is_substring this buffer h process h' :
  is_ipv4 buffer →
  frame_ip_src buffer = default_src_ip_address_ this →
  frame_ip_p buffer = IPPROTO_TCP ∨ frame_ip_p buffer = IPPROTO_UDP →
  frame_owner buffer h = (Some process, h') →
  (verdict (egress_lambda this buffer h) = Some route
   ↔ ∃ pre post, name process = pre ++ app_name_ this ++ post)
  ∧ (verdict (egress_lambda this buffer h) = Some pass
     ↔ ¬ ∃ pre post, name process = pre ++ app_name_ this ++ post).
Proof.
  intros Hip Hsrc Hproto Howner.
  rewrite egress_attributed, Howner by tauto.
  rewrite <- find_npos_iff. case_decide; simpl; split; split; naive_solver.
Qed.

(** C8. In either direction a frame that is passed is returned byte for
    byte, and a frame is routed only if it is IPv4 with protocol TCP or UDP;
    every frame that is not IPv4, and every IPv4 frame of another protocol,
    is passed unchanged. *)
Theorem pass_keeps_frame_route_needs_transport this buffer h :
  (∀ action buffer' this' h',
     egress_lambda this buffer h = Returned action buffer' this' h' →
     (action = pass → buffer' = buffer)
     ∧ (action = route →
        is_ipv4 buffer
        ∧ (frame_ip_p buffer = IPPROTO_TCP ∨ frame_ip_p buffer = IPPROTO_UDP)))
  ∧ (∀ action buffer' this',
       ingress_lambda this buffer = (action, buffer', this') →
       (action = pass → buffer' = buffer)
       ∧ (action = route →
          is_ipv4 buffer
          ∧ (frame_ip_p buffer = IPPROTO_TCP ∨ frame_ip_p buffer = IPPROTO_UDP)))
  ∧ (¬ is_ipv4 buffer
     ∨ (frame_ip_p buffer ≠ IPPROTO_TCP ∧ frame_ip_p buffer ≠ IPPROTO_UDP) →
     egress_lambda this buffer h = Returned pass buffer this h
     ∧ ingress_lambda this buffer = (pass, buffer, this)).
Proof.
  split_and!.
  - intros action buffer' this' h'. rewrite egress_lambda_fields.
    destruct (decide (is_ipv4 buffer)); [|naive_solver].
    destruct (decide (frame_ip_src buffer ≠ default_src_ip_address_ this));
      [naive_solver|].
    destruct (decide (frame_ip_p buffer = IPPROTO_UDP)).
    + destruct (resolve_process_for_udp _ _ _ h) as [[process|] h1]; [|done].
      case_decide; naive_solver.
    + destruct (decide (frame_ip_p buffer = IPPROTO_TCP)); [|naive_solver].
      destruct (resolve_process_for_tcp _ _ _ h) as [[process|] h1]; [|done].
      case_decide; naive_solver.
  - intros action buffer' this'. rewrite ingress_lambda_fields.
    destruct (decide (is_ipv4 buffer)); [|by intros [= <- <- <-]].
    destruct (decide (frame_ip_dst buffer ≠ rebind_src_ip_address_ this));
      [by intros [= <- <- <-]|].
    destruct (decide (frame_ip_p buffer = IPPROTO_UDP ∨ frame_ip_p buffer = IPPROTO_TCP));
      intros [= <- <- <-]; [|done].
    split; [done|]. intros _. split; [done|tauto].
  - intros [Hip|[Htcp Hudp]].
    + by rewrite egress_not_ipv4, ingress_not_ipv4.
    + by rewrite egress_other_protocol, ingress_other_protocol.
Qed.

End callbacks_facts.

(** ** Configuration *)

Section configuration_facts.
Context {D : Type} {Hdriver : capture_driver D}.
Implicit Types (this : rebind_router D) (info : network_adapter_info).

Lemma find_if_Some {A} (pred : A → bool) (l : list A) i :
  find_if pred l = Some i →
  ∃ x, l !! i = Some x ∧ pred x = true
       ∧ ∀ j y, (j < i)%nat → l !! j = Some y → pred y = false.
Proof.
  revert i. induction l as [|x l IH]; intros i; simpl; [done|].
  destruct (pred x) eqn:Hx.
  - intros [= <-]. exists x. split_and!; [done..|]. intros j y Hj. lia.
  - destruct (find_if pred l) as [i'|] eqn:Hfind; [|done].
    intros [= <-]. destruct (IH i' eq_refl) as (z & Hz & Hpz & Hbefore).
    exists z. split_and!; [done..|].
    intros [|j] y Hj; simpl; [naive_solver|]. apply Hbefore. lia.
Qed.

Lemma find_if_None {A} (pred : A → bool) (l : list A) :
  find_if pred l = None ↔ ∀ x, x ∈ l → pred x = false.
Proof.
  induction l as [|x l IH]; simpl.
  - split; [|done]. intros _ x Hx. by apply elem_of_nil in Hx.
  - destruct (pred x) eqn:Hx.
    + split; [done|]. intros Hall. rewrite Hall in Hx; [done|]. apply list_elem_of_here.
    + rewrite fmap_None, IH. split.
      * intros Hall y [->|Hy]%elem_of_cons; [done|]. by apply Hall.
      * intros Hall y Hy. apply Hall. by apply list_elem_of_further.
Qed.

(** The index returned designates an adapter of the list. *)
Lemma get_ndis_interface_in_range this info i :
  get_ndis_interface_by_adapter_info this info = Some i →
  is_Some (get_interface_list (filter_ this) !! i).
Proof.
  unfold get_ndis_interface_by_adapter_info.
  case_decide; intros (x & Hx & _)%find_if_Some; eauto.
Qed.

Lemma set_ndis_interfaces_result default_adapter rebind_adapter this :
  ∃ result this',
    set_ndis_interfaces_by_adapter_info default_adapter rebind_adapter this
    = Some (result, this')
    ∧ (result = false ↔ refused default_adapter rebind_adapter this)
    ∧ (result = false → this' = this).
Proof.
  unfold set_ndis_interfaces_by_adapter_info, refused.
  destruct (get_ndis_interface_by_adapter_info this default_adapter)
    as [ndis_default|] eqn:Hdefault.
  2: { exists false, this. naive_solver. }
  destruct (get_ndis_interface_by_adapter_info this rebind_adapter)
    as [ndis_rebind|] eqn:Hrebind.
  2: { exists false, this. naive_solver. }
  destruct (get_ndis_interface_in_range _ _ _ Hdefault) as [default_if Hdi].
  destruct (get_ndis_interface_in_range _ _ _ Hrebind) as [rebind_if Hri].
  rewrite Hri. simpl.
  destruct (decide (get_ndis_wan_type rebind_if ≠ ndis_wan_none)) as [Hwan|Hwan].
  - exists false, this. naive_solver.
  - rewrite Hdi. simpl. eexists true, _. split; [done|].
    split; [|done]. split; [done|].
    intros [?|[?|(i & a & ? & ? & ?)]]; simplify_eq. done.
Qed.


(** C10. [set_ndis_interfaces_by_adapter_info] always returns; when it
    returns [false] (an adapter was not found, or the rebind adapter is on a
    WAN link) the router is exactly as it was before the call. *)
Theorem configuration_failure_keeps_state default_adapter rebind_adapter this :
  (∃ result this',
     set_ndis_interfaces_by_adapter_info default_adapter rebind_adapter this
     = Some (result, this'))
  ∧ (∀ this',
       set_ndis_interfaces_by_adapter_info default_adapter rebind_adapter this
       = Some (false, this') →
       this' = this ∧ refused default_adapter rebind_adapter this).
Proof.
  destruct (set_ndis_interfaces_result default_adapter rebind_adapter this)
    as (result & this1 & Hset & Hiff & Hkeep).
  split; [by eauto|].
  intros this' Hfalse. rewrite Hset in Hfalse. injection Hfalse as -> ->.
  split; [by apply Hkeep|by apply Hiff].
Qed.
End configuration_facts.

(** ** The modelled checksum routines *)

Section inet_checksum_facts.
Import inet_checksum.
Context {D : Type}.
Implicit Types (this : rebind_router D) (b : INTERMEDIATE_BUFFER) (mem : list byte).

Lemma load8_insert_ne mem (i j : nat) (x : byte) :
  i ≠ j → load8 (<[i:=x]> mem) j = load8 mem j.
Proof. intros Hne. unfold load8. by rewrite list_lookup_insert_ne. Qed.

Lemma load8_store16_elsewhere mem (off : nat) (v : Z) (j : nat) :
  j ≠ off → j ≠ (off + 1)%nat → load8 (store16 off v mem) j = load8 mem j.
Proof.
  intros Hoff Hoff1. unfold store16. by rewrite !load8_insert_ne by done.
Qed.

(** The IP checksum routine writes the two bytes of [ip_sum] only. *)
Lemma ip_checksum_elsewhere b (j : nat) :
  j ≠ 24%nat → j ≠ 25%nat →
  load8 (m_IBuffer (ip_checksum b)) j = load8 (m_IBuffer b) j.
Proof.
  intros H24 H25. unfold ip_checksum, ip_header.
  cbv zeta. unfold set_IBuffer. cbn [m_IBuffer].
  by rewrite !load8_store16_elsewhere by layout.
Qed.

(** The transport checksum routine writes nothing before the transport
    header. *)
Lemma transport_checksum_elsewhere proto (th_sum : nat) b (j : nat) :
  (j < frame_transport b)%nat →
  load8 (m_IBuffer (transport_checksum proto th_sum b)) j = load8 (m_IBuffer b) j.
Proof.
  unfold frame_transport, transport_checksum, ip_header. intros Hj.
  case_decide; [|done]. cbv zeta. unfold set_IBuffer. cbn [m_IBuffer].
  rewrite !load8_store16_elsewhere by layout.
  destruct (Z.odd _); [|done]. by rewrite load8_insert_ne by layout.
Qed.

Lemma frame_transport_bound b :
  5 ≤ ip_hl (m_IBuffer b) sizeof_ether_header → (34 ≤ frame_transport b)%nat.
Proof. unfold frame_transport. intros Hhl. layout. Qed.

(** With a header length of at least five words, recomputing the checksums
    leaves the two MAC addresses and the two IP addresses as they are. *)
Lemma checksums_keep_addresses proto b (j : nat) :
  5 ≤ ip_hl (m_IBuffer b) sizeof_ether_header →
  (j < 24 ∨ 26 ≤ j < 34)%nat →
  load8 (m_IBuffer (RecalculateIPChecksum (RecalculateTransportChecksum proto b))) j
  = load8 (m_IBuffer b) j.
Proof.
  intros Hhl%frame_transport_bound Hj.
  change (RecalculateIPChecksum ?x) with (ip_checksum x).
  rewrite ip_checksum_elsewhere by lia.
  unfold RecalculateTransportChecksum. case_decide.
  - change RecalculateUDPChecksum with (transport_checksum IPPROTO_UDP 6).
    by rewrite transport_checksum_elsewhere by lia.
  - change RecalculateTCPChecksum with (transport_checksum IPPROTO_TCP 16).
    by rewrite transport_checksum_elsewhere by lia.
Qed.

Lemma egress_rewritten_ip_hl this b :
  ip_hl (m_IBuffer (egress_rewritten this b)) sizeof_ether_header
  = ip_hl (m_IBuffer b) sizeof_ether_header.
Proof.
  unfold ip_hl, load_u8. by rewrite egress_rewritten_elsewhere by layout.
Qed.

Lemma ingress_rewritten_ip_hl this b :
  ip_hl (m_IBuffer (ingress_rewritten this b)) sizeof_ether_header
  = ip_hl (m_IBuffer b) sizeof_ether_header.
Proof.
  unfold ip_hl, load_u8. by rewrite ingress_rewritten_elsewhere by layout.
Qed.

(** The frame returned by a routing egress callback carries the rebind
    address and the rebind and gateway MAC addresses. *)
Lemma egress_final_fields this b :
  buffer_wf b →
  5 ≤ ip_hl (m_IBuffer b) sizeof_ether_header →
  let final :=
    RecalculateIPChecksum
      (RecalculateTransportChecksum (frame_ip_p b) (egress_rewritten this b)) in
  frame_ip_src final = rebind_src_ip_address_ this
  ∧ frame_h_source final = data (rebind_src_hw_address_ this)
  ∧ frame_h_dest final = data (rebind_gw_hw_address_ this).
Proof.
  intros Hwf Hhl final.
  destruct (egress_rewritten_fields this b Hwf) as (<- & <- & <-).
  rewrite <- (egress_rewritten_ip_hl this) in Hhl.
  unfold frame_ip_src, frame_h_source, frame_h_dest, load_in_addr, load_mac, final.
  by rewrite !checksums_keep_addresses by (done || layout).
Qed.

Lemma ingress_final_fields this b :
  buffer_wf b →
  5 ≤ ip_hl (m_IBuffer b) sizeof_ether_header →
  let final :=
    RecalculateIPChecksum
      (RecalculateTransportChecksum (frame_ip_p b) (ingress_rewritten this b)) in
  frame_ip_dst final = default_src_ip_address_ this
  ∧ frame_h_dest final = data (default_src_hw_address_ this)
  ∧ frame_h_source final = frame_h_source b.
Proof.
  intros Hwf Hhl final.
  destruct (ingress_rewritten_fields this b Hwf) as (<- & <- & <-).
  rewrite <- (ingress_rewritten_ip_hl this) in Hhl.
  unfold frame_ip_dst, frame_h_source, frame_h_dest, load_in_addr, load_mac, final.
  by rewrite !checksums_keep_addresses by (done || layout).
Qed.

(** A frame the egress callback has routed is passed when it is handed to
    the egress callback again. *)
Lemma egress_routed_then_passed {H} {Hlookup : process_lookup H}
    this b (h h2 : H) final this' h' :
  buffer_wf b →
  5 ≤ ip_hl (m_IBuffer b) sizeof_ether_header →
  default_src_ip_address_ this ≠ rebind_src_ip_address_ this →
  egress_lambda this b h = Returned route final this' h' →
  egress_lambda this final h2 = Returned pass final this h2.
Proof.
  intros Hwf Hhl Hne Hroute. apply egress_other_source.
  rewrite egress_lambda_fields in Hroute.
  destruct (egress_final_fields this b Hwf Hhl) as (Hsrc & _).
  unfold RecalculateTransportChecksum in Hsrc.
  destruct (decide (is_ipv4 b)); [|done].
  destruct (decide (frame_ip_src b ≠ default_src_ip_address_ this)); [done|].
  destruct (decide (frame_ip_p b = IPPROTO_UDP)).
  - destruct (resolve_process_for_udp _ _ _ h) as [[process|] h1]; [|done].
    case_decide; [|done]. injection Hroute as <- _ _.
    intros Heq. apply Hne. etrans; [symmetry; exact Heq|exact Hsrc].
  - destruct (decide (frame_ip_p b = IPPROTO_TCP)); [|done].
    destruct (resolve_process_for_tcp _ _ _ h) as [[process|] h1]; [|done].
    case_decide; [|done]. injection Hroute as <- _ _.
    intros Heq. apply Hne. etrans; [symmetry; exact Heq|exact Hsrc].
Qed.
End inet_checksum_facts.

(** ** The session of the examples *)

Section session.
Import scenario.


(** The theorem above at the truncated frame. *)







(** A rebind adapter that NDIS does not list: the router stays as
    constructed. *)
Lemma configuration_failure_keeps_fresh :
  set_ndis_interfaces_by_adapter_info default_info missing_info fresh = Some (false, fresh).
Proof.
  destruct (configuration_failure_keeps_state default_info missing_info fresh)
    as [(result & this' & Hset) Hkeep].
  assert (result = false) as -> by (vm_compute in Hset; congruence).
  destruct (Hkeep this' Hset) as [-> _]. exact Hset.
Defined.

(** Application name "app.exe", owner "myapp.exe": the frame is routed. *)
Lemma process_match_myapp :
  let this := set_application_name (wstr "app.exe") router in
  let owner := {| name := wstr "myapp.exe" |} in
  verdict (egress_lambda this udp_out (system_tables owner)) = Some route.
Proof.
  intros this owner.
  apply (process_match_is_substring this udp_out (system_tables owner) owner
           (system_tables owner)); try (by vm_compute).
  - right. by vm_compute.
  - by exists (wstr "my"), [].
Defined.

(** An ARP frame is passed unchanged in both directions. *)
Lemma pass_keeps_arp_frame :
  egress_lambda router arp_out tables = Returned pass arp_out router tables
  ∧ ingress_lambda router arp_out = (pass, arp_out, router).
Proof.
  destruct (pass_keeps_frame_route_needs_transport router arp_out tables)
    as (_ & _ & Hpass).
  apply Hpass. left. by vm_compute.
Defined.


(** The search is case-sensitive, and an empty name matches everything. *)
Example find_case_sensitive :
  find (wstr "myapp.exe") (wstr "app.exe") = Some 2%nat
  ∧ find (wstr "myapp.exe") (wstr "App.exe") = npos
  ∧ find (wstr "myapp.exe") (wstr "") = Some 0%nat
  ∧ find (wstr "app") (wstr "app.exe") = npos.
Proof. split_and!; by vm_compute. Qed.

(** A flow missing from the snapshot but present after the refresh gets the
    verdict of an immediate hit, at the price of three calls. *)
Example retry_after_refresh :
  verdict (egress_lambda router udp_out (stale_tables vpnclient)) = Some route
  ∧ verdict (egress_lambda router tcp_out (stale_tables vpnclient)) = Some route
  ∧ verdict (egress_lambda router udp_out (stale_tables browser)) = Some pass
  ∧ udp_calls (m_IBuffer udp_out) sizeof_ether_header (frame_transport udp_out)
      (stale_tables vpnclient)
    = [call_lookup_udp false udp_local; call_actualize false true;
       call_lookup_udp true udp_local]
  ∧ tcp_calls (m_IBuffer tcp_out) sizeof_ether_header (frame_transport tcp_out)
      (stale_tables vpnclient)
    = [call_lookup_tcp false tcp_flow; call_actualize true false;
       call_lookup_tcp true tcp_flow]
  ∧ udp_calls (m_IBuffer udp_out) sizeof_ether_header (frame_transport udp_out) tables
    = [call_lookup_udp false udp_local].
Proof. split_and!; by vm_compute. Qed.

(** The rebound UDP frame on the wire: Ethernet cc.. ← bb.., source
    10.0.0.9:5000, IP checksum 28b6 and UDP checksum cd64, and one record
    in the capture file. *)
Example udp_out_rebound :
  ∃ final this',
    egress_lambda router udp_out tables = Returned route final this' tables
    ∧ m_Length final = 46
    ∧ take 46 (m_IBuffer final)
      = bytes [0xcc; 0xcc; 0xcc; 0xcc; 0xcc; 0xcc;  0xbb; 0xbb; 0xbb; 0xbb; 0xbb; 0xbb;
               0x08; 0x00;
               0x45; 0x00; 0x00; 0x20;  0x12; 0x34; 0x00; 0x00;  0x40; 0x11; 0x28; 0xb6;
               10; 0; 0; 9;  93; 184; 216; 34;
               0x13; 0x88; 0x00; 0x35;  0x00; 0x0c; 0xcd; 0x64;
               0x70; 0x69; 0x6e; 0x67]%N
    ∧ file_stream_ this' = [final].
Proof. eexists _, _. split_and!; by vm_compute. Qed.

(** An ICMP frame from the default address is passed without any lookup. *)
Example icmp_out_passed :
  egress_lambda router icmp_out empty_tables = Returned pass icmp_out router empty_tables.
Proof. by vm_compute. Qed.
End session.

(** * Further properties of the source *)

(** ** Finding the NDIS adapter of an interface *)

Section adapter_search_facts.
Context {D : Type} {Hdriver : capture_driver D}.
Implicit Types (this : rebind_router D) (info : network_adapter_info).

Lemma find_if_Some_iff {A} (pred : A → bool) (l : list A) i :
  find_if pred l = Some i ↔
  (∃ x, l !! i = Some x ∧ pred x = true)
  ∧ ∀ j y, (j < i)%nat → l !! j = Some y → pred y = false.
Proof.
  split.
  { intros (x & Hx & Hpx & Hbefore)%find_if_Some. eauto. }
  revert i. induction l as [|x l IH]; intros i [(y & Hy & Hpy) Hbefore]; [done|].
  simpl. destruct i as [|i]; simpl in Hy.
  - injection Hy as ->. by rewrite Hpy.
  - rewrite (Hbefore 0%nat x) by (done || lia).
    rewrite (IH i); [done|]. split; [by eauto|].
    intros j z Hj Hz. apply (Hbefore (S j) z); [lia|done].
Qed.

(** X1. For an interface that is not PPP, the NDIS adapter found is the
    first of the list whose internal name contains the interface's adapter
    name; none is found exactly when no internal name contains it. *)
Theorem adapter_found_by_name this info :
  get_if_type info ≠ IF_TYPE_PPP →
  (∀ i, get_ndis_interface_by_adapter_info this info = Some i ↔
        (∃ a, get_interface_list (filter_ this) !! i = Some a
              ∧ contains (get_internal_name a) (get_adapter_name info))
        ∧ ∀ j b, (j < i)%nat → get_interface_list (filter_ this) !! j = Some b →
                 ¬ contains (get_internal_name b) (get_adapter_name info))
  ∧ (get_ndis_interface_by_adapter_info this info = None ↔
     ∀ a, a ∈ get_interface_list (filter_ this) →
          ¬ contains (get_internal_name a) (get_adapter_name info)).
Proof.
  intros Htype. unfold get_ndis_interface_by_adapter_info, contains.
  rewrite decide_True by done. split.
  - intros i. rewrite find_if_Some_iff.
    setoid_rewrite bool_decide_eq_true. setoid_rewrite bool_decide_eq_false.
    split.
    + intros [(a & Ha & Hfound) Hbefore]. split.
      * exists a. split; [done|]. apply find_npos_iff. by intros ?.
      * intros j b Hj Hb Hsub%find_npos_iff. apply (Hbefore j b Hj Hb).
        by intros ?.
    + intros [(a & Ha & Hsub%find_npos_iff) Hbefore]. split.
      * exists a. split; [done|]. by intros ?.
      * intros j b Hj Hb Hne. apply (Hbefore j b Hj Hb), find_npos_iff.
        by intros ?.
  - rewrite find_if_None. setoid_rewrite bool_decide_eq_false. split.
    + intros Hall a Ha Hsub%find_npos_iff. apply (Hall a Ha). by intros ?.
    + intros Hall a Ha Hne. apply (Hall a Ha), find_npos_iff. by intros ?.
Qed.

(** X2. For a PPP interface the adapter name plays no part: the NDIS
    adapter found is the first of the list that has RAS links, one of which
    carries an address of the interface. *)
Theorem adapter_found_by_ras_link this info :
  get_if_type info = IF_TYPE_PPP →
  ∀ i, get_ndis_interface_by_adapter_info this info = Some i ↔
       (∃ a wan_info ras_link,
           get_interface_list (filter_ this) !! i = Some a
           ∧ get_ras_links a = Some wan_info
           ∧ ras_link ∈ wan_info
           ∧ has_address info (ip_address ras_link) = true)
       ∧ ∀ j b, (j < i)%nat → get_interface_list (filter_ this) !! j = Some b →
                ∀ wan_info ras_link,
                  get_ras_links b = Some wan_info → ras_link ∈ wan_info →
                  has_address info (ip_address ras_link) = false.
Proof.
  intros Htype i. unfold get_ndis_interface_by_adapter_info.
  rewrite decide_False by (by intros ?). rewrite find_if_Some_iff.
  assert (∀ a : network_adapter,
            match get_ras_links a with
            | Some wan_info =>
                match find_if (λ ras_link, has_address info (ip_address ras_link))
                              wan_info with
                | Some _ => true
                | None => false
                end
            | None => false
            end = false ↔
            ∀ wan_info ras_link,
              get_ras_links a = Some wan_info → ras_link ∈ wan_info →
              has_address info (ip_address ras_link) = false) as Hfalse.
  { intros a. destruct (get_ras_links a) as [wan_info|]; [|naive_solver].
    destruct (find_if _ wan_info) as [k|] eqn:Hfind.
    - split; [done|]. intros Hall.
      apply find_if_Some in Hfind as (ras_link & Hk & Hhas & _).
      rewrite (Hall wan_info ras_link) in Hhas; [done..|].
      by eapply list_elem_of_lookup_2.
    - split; [|done]. intros _ wan_info' ras_link [= <-] Hin.
      by apply (proj1 (find_if_None _ _) Hfind). }
  split.
  - intros [(a & Ha & Hfound) Hbefore]. split.
    + destruct (get_ras_links a) as [wan_info|] eqn:Hras; [|done].
      destruct (find_if _ wan_info) as [k|] eqn:Hfind; [|done].
      apply find_if_Some in Hfind as (ras_link & Hk & Hhas & _).
      exists a, wan_info, ras_link. split_and!; [done..| |done].
      by eapply list_elem_of_lookup_2.
    + intros j b Hj Hb. apply Hfalse. by apply (Hbefore j b).
  - intros [(a & wan_info & ras_link & Ha & Hras & Hin & Hhas) Hbefore]. split.
    + exists a. split; [done|]. rewrite Hras.
      destruct (find_if _ wan_info) as [k|] eqn:Hfind; [done|].
      rewrite (proj1 (find_if_None _ _) Hfind ras_link Hin) in Hhas. done.
    + intros j b Hj Hb. apply Hfalse. by apply (Hbefore j b).
Qed.
End adapter_search_facts.

(** ** What a successful configuration stores *)

Section configuration_success_facts.
Context {D : Type} {Hdriver : capture_driver D}.
Implicit Types (this : rebind_router D) (info : network_adapter_info).

Lemma last_inet_address_last l init :
  last_inet_address l init = default init (sin_addr <$> last_inet_unicast l).
Proof.
  unfold last_inet_address, last_inet_unicast.
  induction l as [|ip l IH] using rev_ind; [done|].
  rewrite foldl_app, filter_app, IH. simpl.
  rewrite filter_cons, filter_nil. case_decide.
  - by rewrite last_snoc.
  - by rewrite app_nil_r.
Qed.

Lemma last_inet_gateway_last l init :
  last_inet_gateway l init = default init (hardware_address <$> last_inet_gw l).
Proof.
  unfold last_inet_gateway, last_inet_gw.
  induction l as [|gw l IH] using rev_ind; [done|].
  rewrite foldl_app, filter_app, IH. simpl.
  rewrite filter_cons, filter_nil. case_decide.
  - by rewrite last_snoc.
  - by rewrite app_nil_r.
Qed.

(** X3. When the configuration succeeds, both interfaces were found among
    the NDIS adapters and the rebind one is not on a WAN link; the two
    handles and the two MAC addresses are those of the adapters found, and
    the application name, the capture file and the filter are untouched. *)
Theorem configuration_success_adapters default_adapter rebind_adapter this this' :
  set_ndis_interfaces_by_adapter_info default_adapter rebind_adapter this
  = Some (true, this') →
  ∃ ndis_default ndis_rebind default_if rebind_if,
    get_ndis_interface_by_adapter_info this default_adapter = Some ndis_default
    ∧ get_ndis_interface_by_adapter_info this rebind_adapter = Some ndis_rebind
    ∧ get_interface_list (filter_ this) !! ndis_default = Some default_if
    ∧ get_interface_list (filter_ this) !! ndis_rebind = Some rebind_if
    ∧ get_ndis_wan_type rebind_if = ndis_wan_none
    ∧ default_adapter_handle_ this' = get_adapter default_if
    ∧ rebind_adapter_handle_ this' = get_adapter rebind_if
    ∧ default_src_hw_address_ this' = get_hw_address default_if
    ∧ rebind_src_hw_address_ this' = get_hw_address rebind_if
    ∧ app_name_ this' = app_name_ this
    ∧ file_stream_ this' = file_stream_ this
    ∧ filter_ this' = filter_ this.
Proof.
  unfold set_ndis_interfaces_by_adapter_info.
  destruct (get_ndis_interface_by_adapter_info this default_adapter)
    as [ndis_default|]; [|done].
  destruct (get_ndis_interface_by_adapter_info this rebind_adapter)
    as [ndis_rebind|]; [|done].
  destruct (get_interface_list (filter_ this) !! ndis_rebind)
    as [rebind_if|] eqn:Hri; [|done].
  simpl. destruct (decide (get_ndis_wan_type rebind_if ≠ ndis_wan_none))
    as [Hwan|Hwan]; [done|].
  destruct (get_interface_list (filter_ this) !! ndis_default)
    as [default_if|] eqn:Hdi; [|done].
  simpl. intros [= <-].
  exists ndis_default, ndis_rebind, default_if, rebind_if.
  split_and!; try done. by destruct (decide (get_ndis_wan_type rebind_if = ndis_wan_none)).
Qed.

(** X4. When the configuration succeeds, the gateway MAC, the rebind
    address and the default address are taken from the last [AF_INET] entry
    of the rebind adapter's gateway list, of its unicast list and of the
    default adapter's unicast list; a list without an [AF_INET] entry does
    not make the configuration fail and leaves the field as it was. *)
Theorem configuration_success_addresses default_adapter rebind_adapter this this' :
  set_ndis_interfaces_by_adapter_info default_adapter rebind_adapter this
  = Some (true, this') →
  rebind_gw_hw_address_ this'
  = default (rebind_gw_hw_address_ this)
      (hardware_address <$> last_inet_gw (get_gateway_address_list rebind_adapter))
  ∧ rebind_src_ip_address_ this'
    = default (rebind_src_ip_address_ this)
        (sin_addr <$> last_inet_unicast (get_unicast_address_list rebind_adapter))
  ∧ default_src_ip_address_ this'
    = default (default_src_ip_address_ this)
        (sin_addr <$> last_inet_unicast (get_unicast_address_list default_adapter)).
Proof.
  unfold set_ndis_interfaces_by_adapter_info.
  destruct (get_ndis_interface_by_adapter_info this default_adapter)
    as [ndis_default|]; [|done].
  destruct (get_ndis_interface_by_adapter_info this rebind_adapter)
    as [ndis_rebind|]; [|done].
  destruct (get_interface_list (filter_ this) !! ndis_rebind)
    as [rebind_if|]; [|done].
  simpl. destruct (decide (get_ndis_wan_type rebind_if ≠ ndis_wan_none)); [done|].
  destruct (get_interface_list (filter_ this) !! ndis_default)
    as [default_if|]; [|done].
  simpl. intros [= <-]. simpl.
  by rewrite last_inet_gateway_last, !last_inet_address_last.
Qed.
End configuration_success_facts.

(** ** What the callbacks change *)

Section callback_effects.
Context {D H : Type} {Hlookup : process_lookup H} {api : CNdisApi}.
Implicit Types (this : rebind_router D) (buffer : INTERMEDIATE_BUFFER) (h : H).

Lemma same_configuration_refl this : same_configuration this this.
Proof. by unfold same_configuration. Qed.

Lemma same_configuration_pcap_write this buffer :
  same_configuration this (pcap_write buffer this).
Proof. by unfold same_configuration. Qed.

(** X5. Neither callback changes the handles, the addresses, the
    application name or the filter of the router.  The capture file grows
    by one record, the frame returned, when the frame is routed, and is
    left alone otherwise. *)
Theorem callbacks_capture_routed_frames this buffer h :
  (∀ action buffer' this' h',
     egress_lambda this buffer h = Returned action buffer' this' h' →
     same_configuration this this'
     ∧ file_stream_ this'
       = file_stream_ this ++ (if decide (action = route) then [buffer'] else []))
  ∧ (∀ action buffer' this',
       ingress_lambda this buffer = (action, buffer', this') →
       same_configuration this this'
       ∧ file_stream_ this'
         = file_stream_ this ++ (if decide (action = route) then [buffer'] else [])).
Proof.
  assert (∀ this', this' = this →
            same_configuration this this'
            ∧ file_stream_ this' = file_stream_ this ++ []) as Hkept.
  { intros ? ->. by rewrite app_nil_r. }
  split.
  - intros action buffer' this' h'. rewrite egress_lambda_fields.
    destruct (decide (is_ipv4 buffer)); [|intros [= <- <- <- <-]; by apply Hkept].
    destruct (decide (frame_ip_src buffer ≠ default_src_ip_address_ this));
      [intros [= <- <- <- <-]; by apply Hkept|].
    destruct (decide (frame_ip_p buffer = IPPROTO_UDP)).
    + destruct (resolve_process_for_udp _ _ _ h) as [[process|] h1]; [|done].
      case_decide; intros [= <- <- <- <-]; [|by apply Hkept].
      split; [apply same_configuration_pcap_write|done].
    + destruct (decide (frame_ip_p buffer = IPPROTO_TCP));
        [|intros [= <- <- <- <-]; by apply Hkept].
      destruct (resolve_process_for_tcp _ _ _ h) as [[process|] h1]; [|done].
      case_decide; intros [= <- <- <- <-]; [|by apply Hkept].
      split; [apply same_configuration_pcap_write|done].
  - intros action buffer' this'. rewrite ingress_lambda_fields.
    destruct (decide (is_ipv4 buffer)); [|intros [= <- <- <-]; by apply Hkept].
    destruct (decide (frame_ip_dst buffer ≠ rebind_src_ip_address_ this));
      [intros [= <- <- <-]; by apply Hkept|].
    destruct (decide (frame_ip_p buffer = IPPROTO_UDP ∨ frame_ip_p buffer = IPPROTO_TCP));
      intros [= <- <- <-]; [|by apply Hkept].
    split; [apply same_configuration_pcap_write|done].
Qed.

Lemma lookup_memcpy {n} (off : nat) (src : vec byte n) (mem : list byte) (j : nat) :
  memcpy off src mem !! j =
    if decide ((off ≤ j < off + n)%nat ∧ (j < length mem)%nat)
    then vec_to_list src !! (j - off)%nat
    else mem !! j.
Proof.
  unfold memcpy. case_decide as Hin.
  - by rewrite list_lookup_inserts by (rewrite ?length_vec_to_list; lia).
  - destruct (decide (j < off)%nat); [by rewrite list_lookup_inserts_lt|].
    destruct (decide (off + n ≤ j)%nat).
    { by rewrite list_lookup_inserts_ge by (rewrite length_vec_to_list; lia). }
    rewrite !lookup_ge_None_2; [done|lia|rewrite length_inserts; lia].
Qed.

(** X6. The address substitutions keep the frame's length and touch
    nothing else: the egress one writes bytes 0 to 11 and 26 to 29 only (the
    two MAC addresses and the source address), the ingress one bytes 0 to 5
    and 30 to 33 only (the destination MAC and the destination address). *)
Theorem rewrite_footprint this buffer :
  (m_Length (egress_rewritten this buffer) = m_Length buffer
   ∧ length (m_IBuffer (egress_rewritten this buffer)) = length (m_IBuffer buffer)
   ∧ ∀ j : nat, (12 ≤ j < 26 ∨ 30 ≤ j)%nat →
       m_IBuffer (egress_rewritten this buffer) !! j = m_IBuffer buffer !! j)
  ∧ (m_Length (ingress_rewritten this buffer) = m_Length buffer
     ∧ length (m_IBuffer (ingress_rewritten this buffer)) = length (m_IBuffer buffer)
     ∧ ∀ j : nat, (6 ≤ j < 30 ∨ 34 ≤ j)%nat →
         m_IBuffer (ingress_rewritten this buffer) !! j = m_IBuffer buffer !! j).
Proof.
  unfold egress_rewritten, ingress_rewritten, egress_rewrite, ingress_rewrite.
  simpl. split_and!; try done.
  - by rewrite !length_memcpy.
  - intros j Hj. rewrite !lookup_memcpy.
    rewrite !decide_False by layout. done.
  - by rewrite !length_memcpy.
  - intros j Hj. rewrite !lookup_memcpy.
    rewrite !decide_False by layout. done.
Qed.

(** X7. Substituting the addresses a second time changes nothing. *)
Theorem rewrite_idempotent this buffer :
  egress_rewritten this (egress_rewritten this buffer) = egress_rewritten this buffer
  ∧ ingress_rewritten this (ingress_rewritten this buffer) = ingress_rewritten this buffer.
Proof.
  unfold egress_rewritten, ingress_rewritten, egress_rewrite, ingress_rewrite,
    set_IBuffer.
  simpl. split; f_equal; apply list_eq; intros j;
    rewrite !lookup_memcpy, !length_memcpy;
    repeat case_decide; try done; exfalso; layout.
Qed.

(** X9. The transport header is looked for between offsets 14 and 74,
    whatever the frame holds, so that the ports are read from the first 78
    bytes of the buffer, which exist in every buffer of [MAX_ETHER_FRAME]
    bytes. *)
Theorem transport_header_in_buffer buffer :
  (14 ≤ frame_transport buffer ≤ 74)%nat
  ∧ (buffer_wf buffer →
     ∀ j : nat, (j < frame_transport buffer + 4)%nat → is_Some (m_IBuffer buffer !! j)).
Proof.
  assert (0 ≤ ip_hl (m_IBuffer buffer) sizeof_ether_header ≤ 15) as Hhl.
  { unfold ip_hl.
    pose proof (Z.land_ones
                  (load_u8 (m_IBuffer buffer) (sizeof_ether_header + ip.ip_hl_v)) 4)
      as Hland.
    change (Z.ones 4) with 15 in Hland. change (2 ^ 4) with 16 in Hland.
    rewrite Hland by lia.
    pose proof (Z.mod_pos_bound
                  (load_u8 (m_IBuffer buffer) (sizeof_ether_header + ip.ip_hl_v))
                  16) as Hmod.
    lia. }
  assert (14 ≤ frame_transport buffer ≤ 74)%nat as Hft
    by (unfold frame_transport; layout).
  split; [done|]. unfold buffer_wf, MAX_ETHER_FRAME. intros Hwf j Hj.
  apply lookup_lt_is_Some. lia.
Qed.
End callback_effects.

(** ** The verdict and the process table *)

Section owner_facts.
Context {D H1 H2 : Type} {Hlookup1 : process_lookup H1} {Hlookup2 : process_lookup H2}
  {api : CNdisApi}.
Implicit Types (this : rebind_router D) (buffer : INTERMEDIATE_BUFFER).

(** X8. The process table acts on the egress callback through the owner
    it resolves and through nothing else: two tables, be they of different
    makes, that attribute the frame to the same process (or both to none)
    lead to the same action, the same frame and the same capture file.  So a
    flow found only after the refresh is treated as one found at once. *)
Theorem egress_depends_on_owner_only this buffer (h1 : H1) (h2 : H2) :
  (frame_owner buffer h1).1 = (frame_owner buffer h2).1 →
  returned (egress_lambda this buffer h1) = returned (egress_lambda this buffer h2).
Proof.
  unfold frame_owner. rewrite !egress_lambda_fields. intros Howner.
  destruct (decide (is_ipv4 buffer)); [|done].
  destruct (decide (frame_ip_src buffer ≠ default_src_ip_address_ this)); [done|].
  destruct (decide (frame_ip_p buffer = IPPROTO_UDP)).
  - destruct (resolve_process_for_udp _ _ _ h1) as [p1 h1'].
    destruct (resolve_process_for_udp _ _ _ h2) as [p2 h2'].
    simpl in Howner. subst p2. destruct p1 as [process|]; [|done].
    by case_decide.
  - destruct (decide (frame_ip_p buffer = IPPROTO_TCP)); [|done].
    destruct (resolve_process_for_tcp _ _ _ h1) as [p1 h1'].
    destruct (resolve_process_for_tcp _ _ _ h2) as [p2 h2'].
    simpl in Howner. subst p2. destruct p1 as [process|]; [|done].
    by case_decide.
Qed.
End owner_facts.

(** ** Starting the filters *)

Section start_facts.
Context {D : Type} {Hdriver : capture_driver D}.
Implicit Types (this : rebind_router D).

(** X10. [start] asks the driver to filter the default adapter in slot 0,
    and the rebind adapter in slot 1 only if that succeeded.  It reports
    success exactly when both requests succeeded, and it never stops a
    filter: after a failure on the rebind adapter the driver is left as the
    two requests made it. *)
Theorem start_order_and_result this :
  let first := start_filter (default_adapter_handle_ this) 0 (filter_ this) in
  let second := start_filter (rebind_adapter_handle_ this) 1 first.2 in
  start_calls this
  = call_start_filter (default_adapter_handle_ this) 0
    :: (if first.1 then [call_start_filter (rebind_adapter_handle_ this) 1] else [])
  ∧ (start this).1 = first.1 && second.1
  ∧ filter_ (start this).2 = (if first.1 then second.2 else first.2).
Proof.
  intros first second. subst first second. unfold start_calls, start. simpl.
  destruct (start_filter (default_adapter_handle_ this) 0 (filter_ this))
    as [[] f0]; simpl; [|done].
  by destruct (start_filter (rebind_adapter_handle_ this) 1 f0) as [[] f1].
Qed.
End start_facts.

(** ** Choosing the rebind adapter *)

Section selection_facts.
Implicit Types (l : list network_adapter_info) (typed_idx : Z).

Lemma size_t_sub_small (a : Z) : 1 ≤ a ≤ 2 ^ 64 → size_t_sub a 1 = a - 1.
Proof.
  unfold size_t_sub. change (2 ^ 64) with 18446744073709551616.
  intros Ha. apply Z.mod_small. lia.
Qed.

Lemma size_t_sub_wraps : size_t_sub 0 1 = 2 ^ 64 - 1.
Proof. reflexivity. Qed.

Lemma select_rebind_adapter_Some l typed_idx a :
  select_rebind_adapter l typed_idx = selected a → a ∈ l.
Proof.
  unfold select_rebind_adapter, vector_at. cbv zeta.
  destruct (decide (Z.of_nat (length l) < _)); [done|].
  destruct (decide (0 ≤ _ < _)); [|done].
  destruct (l !! _) as [b|] eqn:Hb; [|done].
  intros [= <-]. by eapply list_elem_of_lookup_2.
Qed.

Lemma selected_among_alternatives
    (adapter_eq : network_adapter_info → network_adapter_info → bool)
    default_if l typed_idx a :
  select_rebind_adapter (alternatives adapter_eq default_if l) typed_idx = selected a →
  a ∈ l ∧ adapter_eq default_if a = false.
Proof.
  intros Hin%select_rebind_adapter_Some. unfold alternatives in Hin.
  apply list_elem_of_filter in Hin. tauto.
Qed.

(** X11. The adapter [main] goes on to configure as the rebind adapter is
    one of the routable interfaces and is not equal to the default
    interface. *)
Theorem selected_adapter_is_not_default
    (adapter_eq : network_adapter_info → network_adapter_info → bool)
    default_if l typed_idx a :
  select_rebind_adapter (alternatives adapter_eq default_if l) typed_idx = selected a →
  a ∈ l ∧ adapter_eq default_if a = false.
Proof. apply selected_among_alternatives. Qed.

(** X12. With no alternative left the choice ends on "Wrong parameter";
    with a single one it is taken whatever was typed; with several, a typed
    index from 1 to their number takes the alternative of that rank and a
    greater one ends on "Wrong parameter". *)
Theorem selection_by_index l typed_idx :
  Z.of_nat (length l) < 2 ^ 64 →
  (l = [] → select_rebind_adapter l typed_idx = wrong_parameter)
  ∧ (∀ a, l = [a] → select_rebind_adapter l typed_idx = selected a)
  ∧ ((1 < length l)%nat → Z.of_nat (length l) < typed_idx →
     select_rebind_adapter l typed_idx = wrong_parameter)
  ∧ ((1 < length l)%nat → 1 ≤ typed_idx ≤ Z.of_nat (length l) →
     ∃ a, l !! Z.to_nat (typed_idx - 1) = Some a
          ∧ select_rebind_adapter l typed_idx = selected a).
Proof.
  change (2 ^ 64) with 18446744073709551616. intros Hsize. split_and!.
  - by intros ->.
  - by intros a ->.
  - intros Hmany Hbig. unfold select_rebind_adapter. cbv zeta.
    destruct (decide (1 < length l)%nat); [|done]. by rewrite decide_True.
  - intros Hmany Hidx. unfold select_rebind_adapter, vector_at. cbv zeta.
    destruct (decide (1 < length l)%nat); [|done]. rewrite decide_False by lia.
    rewrite size_t_sub_small
      by (change (2 ^ 64) with 18446744073709551616; lia).
    rewrite decide_True by lia.
    destruct (lookup_lt_is_Some_2 l (Z.to_nat (typed_idx - 1))) as [a Ha]; [lia|].
    exists a. by rewrite Ha.
Qed.

(** X13. The typed index 0, which is also what a failed extraction leaves
    in [idx], passes the range check when there are several alternatives;
    [idx - 1] then wraps around and [routable_adapters[idx - 1]] is an
    access outside the vector.  No other input leads there. *)
Theorem selection_index_zero l typed_idx :
  Z.of_nat (length l) < 2 ^ 64 →
  0 ≤ typed_idx < 2 ^ 64 →
  select_rebind_adapter l typed_idx = index_out_of_range
  ↔ (1 < length l)%nat ∧ typed_idx = 0.
Proof.
  change (2 ^ 64) with 18446744073709551616. intros Hsize Hidx.
  unfold select_rebind_adapter, vector_at. cbv zeta.
  destruct (decide (1 < length l)%nat) as [Hmany|Hfew].
  - destruct (decide (Z.of_nat (length l) < typed_idx)) as [Hbig|Hsmall].
    { split; [done|]. intros [_ ->]. lia. }
    destruct (decide (typed_idx = 0)) as [->|Hnz].
    + rewrite size_t_sub_wraps. change (2 ^ 64) with 18446744073709551616.
      by rewrite decide_False by lia.
    + rewrite size_t_sub_small
        by (change (2 ^ 64) with 18446744073709551616; lia).
      rewrite decide_True by lia.
      destruct (lookup_lt_is_Some_2 l (Z.to_nat (typed_idx - 1))) as [a Ha]; [lia|].
      rewrite Ha. split; [done|]. by intros [_ ?].
  - destruct (decide (Z.of_nat (length l) < 1)) as [Hbig|Hsmall].
    { split; [done|]. by intros [? _]. }
    rewrite size_t_sub_small
      by (change (2 ^ 64) with 18446744073709551616; lia).
    rewrite decide_True by lia.
    destruct l as [|a l']; [simpl in *; lia|].
    simpl. split; [done|]. by intros [? _].
Qed.
End selection_facts.

(** ** The main function *)

Section main_facts.
Context {D : Type} {Hdriver : capture_driver D}.
Variable IsDriverLoaded : D → bool.
Variable adapter_eq : network_adapter_info → network_adapter_info → bool.
Implicit Types (rebind : rebind_router D).

(** X14. [main] exits with code 1 exactly when the driver is not loaded.
    It starts filters only after a configuration that was accepted, for the
    best interface and an alternative to it; on every other path the driver
    sees nothing but the two stops of the destructor. *)
Theorem main_starts_only_when_configured routable_adapters default_adapter
    app_name_w typed_idx rebind code rebind' :
  main IsDriverLoaded adapter_eq routable_adapters default_adapter
       app_name_w typed_idx rebind = Some (code, rebind') →
  (code = 1 ↔ IsDriverLoaded (filter_ rebind) = false)
  ∧ (code = 0 ∨ code = 1)
  ∧ (filter_ rebind' = stop_filter 1 (stop_filter 0 (filter_ rebind))
     ∨ ∃ default_if rebind_adapter configured,
         IsDriverLoaded (filter_ rebind) = true
         ∧ default_adapter = Some default_if
         ∧ rebind_adapter ∈ routable_adapters
         ∧ adapter_eq default_if rebind_adapter = false
         ∧ set_ndis_interfaces_by_adapter_info default_if rebind_adapter
             (set_application_name app_name_w rebind) = Some (true, configured)
         ∧ rebind' = stop (start configured).2).
Proof.
  unfold main. destruct (IsDriverLoaded (filter_ rebind)) eqn:Hloaded; simpl.
  2: { intros [= <- <-]. split_and!; [done|by right|by left]. }
  destruct default_adapter as [default_if|].
  2: { intros [= <- <-]. split_and!; [done|by left|by left]. }
  case_decide.
  { intros [= <- <-]. split_and!; [done|by left|by left]. }
  destruct (select_rebind_adapter _ typed_idx) as [rebind_adapter| |] eqn:Hselect;
    [| |done].
  2: { intros [= <- <-]. split_and!; [done|by left|by left]. }
  apply selected_among_alternatives in Hselect as [Hin Hne].
  unfold main_configure_and_start.
  destruct (set_ndis_interfaces_result default_if rebind_adapter
              (set_application_name app_name_w rebind))
    as (result & configured & Hset & _ & Hkeep).
  rewrite Hset. simpl. destruct result; simpl.
  - destruct (start configured) as [started rebind1] eqn:Hstart.
    intros [= <- <-]. split_and!; [done|by left|]. right.
    exists default_if, rebind_adapter, configured. by rewrite Hstart.
  - intros [= <- <-]. split_and!; [done|by left|]. left.
    by rewrite Hkeep.
Qed.
End main_facts.

(** ** The application name and the ports *)

Section name_and_port_facts.
Context {D H : Type} {Hlookup : process_lookup H} {api : CNdisApi}.
Implicit Types (this : rebind_router D) (buffer : INTERMEDIATE_BUFFER) (h : H)
  (mem : list byte).

(** X15. With an empty application name, as after an empty line typed in
    [main], every TCP or UDP frame sent from the default address whose owner
    is resolved is routed, whatever the owner. *)
Theorem empty_name_routes_every_owner this buffer h process h' :
  app_name_ this = [] →
  is_ipv4 buffer →
  frame_ip_src buffer = default_src_ip_address_ this →
  frame_ip_p buffer = IPPROTO_TCP ∨ frame_ip_p buffer = IPPROTO_UDP →
  frame_owner buffer h = (Some process, h') →
  verdict (egress_lambda this buffer h) = Some route.
Proof.
  intros Hname Hip Hsrc Hproto Howner.
  rewrite egress_attributed, Howner by tauto.
  rewrite decide_True; [done|].
  apply find_npos_iff. exists [], (name process). by rewrite Hname.
Qed.

Lemma byte_val_bounds (b : byte) : 0 ≤ byte_val b < 256.
Proof.
  unfold byte_val. pose proof (Byte.to_N_bounded b). lia.
Qed.

Lemma land_shiftl_low (lo hi : Z) : 0 ≤ hi < 256 → Z.land (Z.shiftl lo 8) hi = 0.
Proof.
  intros Hhi. apply Z.bits_inj'. intros n Hn.
  rewrite Z.land_spec, Z.bits_0.
  destruct (Z.lt_ge_cases n 8) as [Hlow|Hhigh].
  - by rewrite Z.shiftl_spec_low.
  - replace hi with (hi mod 2 ^ 8) by (apply Z.mod_small; lia).
    rewrite Z.mod_pow2_bits_high by lia. apply andb_false_r.
Qed.

(** [ntohs] of a field read on the host is its value in network order. *)
Lemma ntohs_load_u16 mem (off : nat) :
  ntohs (load_u16 mem off) = 256 * load_u8 mem off + load_u8 mem (off + 1).
Proof.
  unfold ntohs, load_u16, load_u8.
  pose proof (byte_val_bounds (load8 mem off)) as Hlo.
  pose proof (byte_val_bounds (load8 mem (off + 1))) as Hhi.
  set (lo := byte_val (load8 mem off)) in *.
  set (hi := byte_val (load8 mem (off + 1))) in *.
  change 255 with (Z.ones 8). rewrite !Z.land_ones by lia.
  rewrite Z.shiftr_div_pow2 by lia. change (2 ^ 8) with 256.
  replace ((lo + 256 * hi) mod 256) with lo by (Z.div_mod_to_equations; lia).
  replace ((lo + 256 * hi) / 256) with hi by (Z.div_mod_to_equations; lia).
  rewrite (Z.mod_small hi) by lia.
  pose proof (Z.add_lor_land (Z.shiftl lo 8) hi) as Hadd.
  rewrite land_shiftl_low in Hadd by lia.
  rewrite Z.shiftl_mul_pow2 in Hadd by lia. change (2 ^ 8) with 256 in Hadd.
  rewrite Z.shiftl_mul_pow2 by lia. change (2 ^ 8) with 256. lia.
Qed.

(** X16. The ports of the keys handed to the process table are the port
    fields of the transport header taken in network byte order, high byte
    first, and so lie between 0 and 65535. *)
Theorem key_ports_in_network_order mem (ip_header tcp_header udp_header : nat) :
  local_port (tcp_session mem ip_header tcp_header)
  = 256 * load_u8 mem tcp_header + load_u8 mem (tcp_header + 1)
  ∧ remote_port (tcp_session mem ip_header tcp_header)
    = 256 * load_u8 mem (tcp_header + 2) + load_u8 mem (tcp_header + 3)
  ∧ endpoint_port (udp_endpoint mem ip_header udp_header)
    = 256 * load_u8 mem udp_header + load_u8 mem (udp_header + 1)
  ∧ 0 ≤ local_port (tcp_session mem ip_header tcp_header) ≤ 65535
  ∧ 0 ≤ remote_port (tcp_session mem ip_header tcp_header) ≤ 65535
  ∧ 0 ≤ endpoint_port (udp_endpoint mem ip_header udp_header) ≤ 65535.
Proof.
  unfold tcp_session, udp_endpoint, transport.th_sport, transport.th_dport.
  simpl. rewrite !ntohs_load_u16, !Nat.add_0_r.
  replace (tcp_header + 2 + 1)%nat with (tcp_header + 3)%nat by lia.
  pose proof (byte_val_bounds (load8 mem tcp_header)).
  pose proof (byte_val_bounds (load8 mem (tcp_header + 1))).
  pose proof (byte_val_bounds (load8 mem (tcp_header + 2))).
  pose proof (byte_val_bounds (load8 mem (tcp_header + 3))).
  pose proof (byte_val_bounds (load8 mem udp_header)).
  pose proof (byte_val_bounds (load8 mem (udp_header + 1))).
  unfold load_u8. split_and!; try done; lia.
Qed.
End name_and_port_facts.

(** ** The further properties in the session of the examples *)

Section further_session.
Import scenario console.

(** The rebind interface is found at rank 1 of the NDIS adapters, and
    there only. *)
Lemma adapter_found_by_name_rebind :
  (∃ a, get_interface_list (filter_ fresh) !! 1%nat = Some a
        ∧ contains (get_internal_name a) (get_adapter_name rebind_info))
  ∧ ∀ j b, (j < 1)%nat → get_interface_list (filter_ fresh) !! j = Some b →
           ¬ contains (get_internal_name b) (get_adapter_name rebind_info).
Proof.
  assert (get_if_type rebind_info ≠ IF_TYPE_PPP) as Htype by (by vm_compute).
  destruct (adapter_found_by_name fresh rebind_info Htype) as [Hfound _].
  apply Hfound. by vm_compute.
Defined.

(** The PPP interface is found through the RAS link of the WAN adapter. *)
Lemma adapter_found_by_ras_link_wan :
  ∃ a wan_links ras_link,
    get_interface_list (filter_ fresh) !! 2%nat = Some a
    ∧ get_ras_links a = Some wan_links
    ∧ ras_link ∈ wan_links
    ∧ has_address wan_info (ip_address ras_link) = true.
Proof.
  assert (get_if_type wan_info = IF_TYPE_PPP) as Htype by (by vm_compute).
  destruct (adapter_found_by_ras_link fresh wan_info Htype 2%nat) as [Hfound _].
  apply Hfound. by vm_compute.
Defined.

Lemma configuration_success_adapters_session :
  ∃ ndis_default ndis_rebind default_if rebind_if,
    get_ndis_interface_by_adapter_info fresh default_info = Some ndis_default
    ∧ get_ndis_interface_by_adapter_info fresh rebind_info = Some ndis_rebind
    ∧ get_interface_list (filter_ fresh) !! ndis_default = Some default_if
    ∧ get_interface_list (filter_ fresh) !! ndis_rebind = Some rebind_if
    ∧ get_ndis_wan_type rebind_if = ndis_wan_none
    ∧ default_adapter_handle_ router = get_adapter default_if
    ∧ rebind_adapter_handle_ router = get_adapter rebind_if
    ∧ default_src_hw_address_ router = get_hw_address default_if
    ∧ rebind_src_hw_address_ router = get_hw_address rebind_if
    ∧ app_name_ router = app_name_ fresh
    ∧ file_stream_ router = file_stream_ fresh
    ∧ filter_ router = filter_ fresh.
Proof.
  apply (configuration_success_adapters default_info rebind_info fresh router).
  by vm_compute.
Defined.

(** A rebind interface without an IPv4 address is accepted; the rebind
    address and the gateway MAC stay as constructed. *)
Lemma configuration_success_addresses_no_inet :
  ∃ this',
    set_ndis_interfaces_by_adapter_info default_info rebind_info_no_inet fresh
    = Some (true, this')
    ∧ rebind_gw_hw_address_ this' = rebind_gw_hw_address_ fresh
    ∧ rebind_src_ip_address_ this' = rebind_src_ip_address_ fresh
    ∧ default_src_ip_address_ this' = default_ip.
Proof.
  destruct (set_ndis_interfaces_by_adapter_info default_info rebind_info_no_inet fresh)
    as [[[] this']|] eqn:Hset; try (by vm_compute in Hset).
  exists this'. split; [done|].
  by destruct (configuration_success_addresses default_info rebind_info_no_inet
                 fresh this' Hset) as (-> & -> & ->).
Defined.

(** The stale table and the fresh one lead to the same routed frame. *)
Lemma egress_depends_on_owner_only_stale :
  returned (egress_lambda router udp_out (stale_tables vpnclient))
  = returned (egress_lambda router udp_out tables).
Proof.
  apply (egress_depends_on_owner_only router udp_out (stale_tables vpnclient) tables).
  by vm_compute.
Defined.

(** With the rebind adapter not filterable, [start] fails after two
    requests and the default adapter stays filtered. *)
Example start_fails_on_rebind :
  start_calls half_startable = [call_start_filter 0x100 0; call_start_filter 0x200 1]
  ∧ (start half_startable).1 = false
  ∧ selective_driver.started (filter_ (start half_startable).2) = [(0x100, 0%nat)].
Proof. split_and!; by vm_compute. Qed.

Lemma selected_adapter_is_not_default_session :
  rebind_info ∈ routable ∧ same_adapter default_info rebind_info = false.
Proof.
  apply (selected_adapter_is_not_default same_adapter default_info routable 1).
  by vm_compute.
Defined.

Lemma selection_by_index_session :
  select_rebind_adapter [rebind_info; missing_info] 3 = wrong_parameter
  ∧ ∃ a, [rebind_info; missing_info] !! Z.to_nat (2 - 1) = Some a
         ∧ select_rebind_adapter [rebind_info; missing_info] 2 = selected a.
Proof.
  assert (Z.of_nat (length [rebind_info; missing_info]) < 2 ^ 64) as Hsize
    by (by vm_compute).
  destruct (selection_by_index [rebind_info; missing_info] 3 Hsize)
    as (_ & _ & Hbig & _).
  destruct (selection_by_index [rebind_info; missing_info] 2 Hsize)
    as (_ & _ & _ & Hrank).
  split; [apply Hbig|apply Hrank]; simpl; lia.
Defined.

Lemma selection_index_zero_session :
  select_rebind_adapter [rebind_info; missing_info] 0 = index_out_of_range.
Proof.
  apply (selection_index_zero [rebind_info; missing_info] 0).
  - by vm_compute.
  - by vm_compute.
  - split; [simpl; lia|done].
Defined.

(** The router with no application name routes the frame of the browser
    too. *)
Lemma empty_name_routes_browser :
  verdict (egress_lambda (set_application_name [] router) udp_out
             (system_tables browser)) = Some route.
Proof.
  apply (empty_name_routes_every_owner (set_application_name [] router) udp_out
           (system_tables browser) browser (system_tables browser));
    try (by vm_compute).
  right. by vm_compute.
Defined.

(** A complete run: index 1 typed, both filters started, then stopped by
    the destructor; and a run on which the driver is not loaded. *)
Lemma main_starts_only_when_configured_session :
  main loaded same_adapter routable (Some default_info) (wstr "vpnclient.exe") 1 fresh
  = Some (0, stop (start router).2)
  ∧ (0 = 1 ↔ loaded (filter_ fresh) = false).
Proof.
  assert (main loaded same_adapter routable (Some default_info)
            (wstr "vpnclient.exe") 1 fresh
          = Some (0, stop (start router).2)) as Hmain by (by vm_compute).
  split; [done|].
  by destruct (main_starts_only_when_configured loaded same_adapter routable
                 (Some default_info) (wstr "vpnclient.exe") 1 fresh 0
                 (stop (start router).2) Hmain) as (Hcode & _).
Defined.

Example main_without_driver :
  main (λ _, false) same_adapter routable (Some default_info)
       (wstr "vpnclient.exe") 1 fresh
  = Some (1, fresh)
  ∧ main loaded same_adapter routable (Some default_info) (wstr "vpnclient.exe") 0 fresh
    = None
  ∧ main loaded same_adapter [default_info] (Some default_info)
         (wstr "vpnclient.exe") 1 fresh
    = Some (0, fresh).
Proof. split_and!; by vm_compute. Qed.
End further_session.
